(** * Fat16Reader: a shallow embedding of [fat16_reader.py]

    The reader keeps the whole image as a [bytes] object and navigates it
    with Python indexing, slicing and [struct.unpack].  The embedding keeps
    these operations as Python defines them (negative indices, clamped
    slices, exceptions) and threads the reader object explicitly through
    the "shell" commands [ls], [cd] and [open_file]. *)

From Stdlib Require Import ZArith List Bool Lia.
From Stdlib Require Import Strings.String Strings.Ascii Strings.Byte.
Import ListNotations.
Local Open Scope Z_scope.

(** ** Outcomes of Python code *)

(** Exceptions the reader can raise: the runtime errors of the byte
    accesses and of name decoding, the unbound local of [open_file], and
    the classes declared at the end of [Fat16Reader]. *)
Inductive exn : Type :=
| IndexError
| StructError
| UnicodeDecodeError
| UnboundLocalError
| ClusterOffsetException
| NotADirectoryException
| NotAFileException.

(** A call returns, raises, or is still running when the fuel given to the
    unbounded [while] loop of the chain walk is used up. *)
Inductive outcome (A : Type) : Type :=
| Ret (a : A)
| Raise (e : exn)
| OutOfFuel.
Arguments Ret {A} a.
Arguments Raise {A} e.
Arguments OutOfFuel {A}.

Definition bind {A B} (m : outcome A) (k : A -> outcome B) : outcome B :=
  match m with
  | Ret a => k a
  | Raise e => Raise e
  | OutOfFuel => OutOfFuel
  end.

Notation "x <- m ;; k" := (bind m (fun x => k))
  (at level 61, m at next level, right associativity).

Definition returns {A} (m : outcome A) : Prop := exists a, m = Ret a.
Definition halts {A} (m : outcome A) : Prop := m <> OutOfFuel.

(** ** Python [bytes] *)

Definition pybytes := list byte.

Definition byte_val (b : byte) : Z := Z.of_N (Byte.to_N b).

Definition len {A} (l : list A) : Z := Z.of_nat (List.length l).

(** [image[i]]: negative indices count from the end, anything outside
    raises [IndexError]. *)
Definition py_index (image : pybytes) (i : Z) : outcome Z :=
  let i' := if i <? 0 then i + len image else i in
  if (0 <=? i') && (i' <? len image)
  then match nth_error image (Z.to_nat i') with
       | Some b => Ret (byte_val b)
       | None => Raise IndexError
       end
  else Raise IndexError.

(** Bounds of a slice [image[a:b]] as [PySlice_AdjustIndices] computes
    them for step 1. *)
Definition adjust_index (n i : Z) : Z :=
  if i <? 0 then Z.max (i + n) 0 else Z.min i n.

Definition py_slice {A} (l : list A) (a b : Z) : list A :=
  let start := adjust_index (len l) a in
  let stop := adjust_index (len l) b in
  firstn (Z.to_nat (stop - start)) (skipn (Z.to_nat start) l).

(** [struct.unpack("<H", s)[0]] and [struct.unpack("<I", s)[0]]: the
    buffer must have exactly the size of the format. *)
Definition unpack_H (s : pybytes) : outcome Z :=
  match s with
  | [b0; b1] => Ret (byte_val b0 + 256 * byte_val b1)
  | _ => Raise StructError
  end.

Definition unpack_I (s : pybytes) : outcome Z :=
  match s with
  | [b0; b1; b2; b3] =>
      Ret (byte_val b0 + 256 * byte_val b1
           + 65536 * byte_val b2 + 16777216 * byte_val b3)
  | _ => Raise StructError
  end.

(** ** Python [str]: a sequence of code points *)

Definition pystr := list Z.

Definition str (s : string) : pystr :=
  map (fun c => Z.of_N (N_of_ascii c)) (list_ascii_of_string s).

Definition is_cont (b : Z) : bool := (0x80 <=? b) && (b <=? 0xBF).
Definition in_range (lo hi b : Z) : bool := (lo <=? b) && (b <=? hi).

(** [bytes.decode("utf-8")] with the default strict error handler: the
    well-formed byte sequences of the Unicode standard, anything else
    raises [UnicodeDecodeError]. *)
Fixpoint utf8_decode (s : pybytes) : outcome pystr :=
  match s with
  | [] => Ret []
  | b0 :: s1 =>
      let c0 := byte_val b0 in
      if c0 <? 0x80 then
        rest <- utf8_decode s1 ;; Ret (c0 :: rest)
      else if in_range 0xC2 0xDF c0 then
        match s1 with
        | b1 :: s2 =>
            let c1 := byte_val b1 in
            if is_cont c1 then
              rest <- utf8_decode s2 ;;
              Ret (((c0 - 0xC0) * 64 + (c1 - 0x80)) :: rest)
            else Raise UnicodeDecodeError
        | _ => Raise UnicodeDecodeError
        end
      else if in_range 0xE0 0xEF c0 then
        match s1 with
        | b1 :: b2 :: s3 =>
            let c1 := byte_val b1 in
            let c2 := byte_val b2 in
            let second_ok :=
              if c0 =? 0xE0 then in_range 0xA0 0xBF c1
              else if c0 =? 0xED then in_range 0x80 0x9F c1
              else is_cont c1 in
            if second_ok && is_cont c2 then
              rest <- utf8_decode s3 ;;
              Ret (((c0 - 0xE0) * 4096 + (c1 - 0x80) * 64 + (c2 - 0x80))
                     :: rest)
            else Raise UnicodeDecodeError
        | _ => Raise UnicodeDecodeError
        end
      else if in_range 0xF0 0xF4 c0 then
        match s1 with
        | b1 :: b2 :: b3 :: s4 =>
            let c1 := byte_val b1 in
            let c2 := byte_val b2 in
            let c3 := byte_val b3 in
            let second_ok :=
              if c0 =? 0xF0 then in_range 0x90 0xBF c1
              else if c0 =? 0xF4 then in_range 0x80 0x8F c1
              else is_cont c1 in
            if second_ok && is_cont c2 && is_cont c3 then
              rest <- utf8_decode s4 ;;
              Ret (((c0 - 0xF0) * 262144 + (c1 - 0x80) * 4096
                    + (c2 - 0x80) * 64 + (c3 - 0x80)) :: rest)
            else Raise UnicodeDecodeError
        | _ => Raise UnicodeDecodeError
        end
      else Raise UnicodeDecodeError
  end.

(** [str.isspace] on one code point. *)
Definition is_space (c : Z) : bool :=
  in_range 0x09 0x0D c || in_range 0x1C 0x20 c
  || (c =? 0x85) || (c =? 0xA0) || (c =? 0x1680)
  || in_range 0x2000 0x200A c || (c =? 0x2028) || (c =? 0x2029)
  || (c =? 0x202F) || (c =? 0x205F) || (c =? 0x3000).

Fixpoint lstrip (s : pystr) : pystr :=
  match s with
  | c :: s' => if is_space c then lstrip s' else s
  | [] => []
  end.

(** [str.strip()] *)
Definition strip (s : pystr) : pystr := rev (lstrip (rev (lstrip s))).

(** [==] on two [str] values. *)
Fixpoint pystr_eqb (a b : pystr) : bool :=
  match a, b with
  | [], [] => true
  | x :: a', y :: b' => (x =? y) && pystr_eqb a' b'
  | _, _ => false
  end.

(** [x in l] for a list of strings. *)
Definition py_in (x : string) (l : list string) : bool :=
  existsb (String.eqb x) l.

(** ** The container classes *)

Module DirectoryEntry.
Record t : Type := mk {
  filename : pystr;
  extension : pystr;
  attributes : list string;
  creation_time : Z;
  creation_date : Z;
  cluster_number : Z;
  filesize : Z
}.
End DirectoryEntry.

Module FileInfo.
Record t : Type := mk {
  filename : pystr;
  extension : pystr;
  filesize : Z;
  bytes : pybytes
}.
End FileInfo.

(** ** The reader object *)

Record Fat16Reader : Type := mkReader {
  do_print_on_commands : bool;
  image : pybytes;
  volume_id : pystr;
  _reserved_sectors : Z;
  _sector_size : Z;
  _cluster_size : Z;
  _fat_offset : Z;
  _fat_size : Z;
  _fat_copies : Z;
  _root_directory_offset : Z;
  _root_directory_entries : Z;
  _root_directory_size : Z;
  _clusters_offset : Z;
  _current_root : Z;
  _current_entries : list DirectoryEntry.t
}.

(** The assignment [self._current_entries = es]. *)
Definition set_current_entries (r : Fat16Reader) (es : list DirectoryEntry.t)
  : Fat16Reader :=
  mkReader (do_print_on_commands r) (image r) (volume_id r)
    (_reserved_sectors r) (_sector_size r) (_cluster_size r)
    (_fat_offset r) (_fat_size r) (_fat_copies r)
    (_root_directory_offset r) (_root_directory_entries r)
    (_root_directory_size r) (_clusters_offset r) (_current_root r) es.

(** Class constants.  The dictionaries keep their insertion order, which
    is the order Python iterates them in. *)
Definition _attributes : list (Z * string) :=
  [ (0x01, "read_only"%string);
    (0x02, "hidden"%string);
    (0x04, "system"%string);
    (0x08, "volume_id"%string);
    (0x10, "directory"%string);
    (0x20, "archive"%string) ].

Definition _fat_16_notable_values : list (Z * string) :=
  [ (0x0000, "free cluster"%string);
    (0x0001, "not allowed"%string);
    (0xFFF7, "one or more bad sectors in cluster"%string);
    (0xFFF8, "end of file"%string);
    (0xFFFF, "end of file"%string) ].

Definition _entry_size : Z := 32.
Definition _fat_cluster_read_start : Z := 2.

(** [key in d] for a dictionary with integer keys. *)
Definition dict_has_key {V} (d : list (Z * V)) (k : Z) : bool :=
  existsb (fun kv => fst kv =? k) d.

(** ** Reading the image *)

Definition read_ushort_at (img : pybytes) (offset : Z) : outcome Z :=
  unpack_H (py_slice img offset (offset + 2)).

Definition _read_ushort (r : Fat16Reader) (offset : Z) : outcome Z :=
  read_ushort_at (image r) offset.

(** [__init__] up to the end of [_read_boot_sector], followed by the
    choice of the root as current directory; the entries are read by
    [init] below, once [_read_directory] is defined. *)
Definition _read_boot_sector (do_print : bool) (img : pybytes)
  : outcome Fat16Reader :=
  reserved_sectors <- read_ushort_at img 14 ;;
  sector_size <- read_ushort_at img 11 ;;
  cluster_size <- py_index img 13 ;;
  let fat_offset := reserved_sectors * sector_size in
  fat_size <- read_ushort_at img 22 ;;
  fat_copies <- py_index img 16 ;;
  let root_directory_offset :=
    fat_offset + (fat_size * fat_copies * sector_size) in
  root_directory_entries <- read_ushort_at img 17 ;;
  let root_directory_size := root_directory_entries * _entry_size in
  let clusters_offset := root_directory_offset + root_directory_size in
  Ret (mkReader do_print img [] reserved_sectors sector_size cluster_size
         fat_offset fat_size fat_copies root_directory_offset
         root_directory_entries root_directory_size clusters_offset
         root_directory_offset []).

(** The loop [for attribute in self._attributes] of [_read_entry]. *)
Definition entry_attributes_of (attributes_byte : Z) : list string :=
  map snd
    (filter (fun kv => negb (Z.land attributes_byte (fst kv) =? 0))
       _attributes).

(** [_read_entry].  The constructor is called with [creation_date] before
    [creation_time] although its parameters are in the other order, so the
    two attributes hold each other's value. *)
Definition _read_entry (r : Fat16Reader) (byte_offset : Z)
  : outcome DirectoryEntry.t :=
  let name := py_slice (image r) byte_offset (byte_offset + 8) in
  let extension := py_slice (image r) (byte_offset + 8) (byte_offset + 11) in
  decoded_name <- utf8_decode name ;;
  let entry_filename := strip decoded_name in
  decoded_extension <- utf8_decode extension ;;
  let entry_extension := strip decoded_extension in
  attributes_byte <- py_index (image r) (byte_offset + 11) ;;
  let entry_attributes := entry_attributes_of attributes_byte in
  creation_time <- _read_ushort r (byte_offset + 14) ;;
  creation_date <- _read_ushort r (byte_offset + 16) ;;
  cluster_number <- _read_ushort r (byte_offset + 26) ;;
  filesize <-
    unpack_I (py_slice (image r) (byte_offset + 28) (byte_offset + 32)) ;;
  Ret (DirectoryEntry.mk entry_filename entry_extension entry_attributes
         creation_date creation_time cluster_number filesize).

(** The [while] loop of [_read_directory].  Every turn moves the offset 32
    bytes up inside a finite image, so the loop needs no more turns than
    [read_directory_turns] allows ([_read_directory_halts] below). *)
Fixpoint read_directory_loop (turns : nat) (r : Fat16Reader)
    (entry_offset : Z) (entries : list DirectoryEntry.t)
  : outcome (list DirectoryEntry.t) :=
  first_byte <- py_index (image r) entry_offset ;;
  if first_byte =? 0x00 then Ret entries
  else
    match turns with
    | O => OutOfFuel
    | S turns' =>
        entry <- _read_entry r entry_offset ;;
        read_directory_loop turns' r (entry_offset + _entry_size)
          (entries ++ [entry])
    end.

Definition read_directory_turns (r : Fat16Reader) : nat :=
  2 * List.length (image r).

Definition _read_directory (r : Fat16Reader) (offset : Z)
  : outcome (list DirectoryEntry.t) :=
  read_directory_loop (read_directory_turns r) r offset [].

(** [Fat16Reader(file_path, do_print_on_commands)], from the bytes of the
    file. *)
Definition init (img : pybytes) (do_print : bool) : outcome Fat16Reader :=
  r <- _read_boot_sector do_print img ;;
  entries <- _read_directory r (_current_root r) ;;
  Ret (set_current_entries r entries).

(** ** The cluster chain *)

Definition _check_next_in_fat (r : Fat16Reader) (cluster_number : Z)
  : outcome (bool * Z) :=
  fat_16_value <- _read_ushort r (_fat_offset r + cluster_number * 2) ;;
  let has_next_cluster :=
    if dict_has_key _fat_16_notable_values fat_16_value then false
    else true in
  Ret (has_next_cluster, fat_16_value).

(** The [while] loop of [_get_clusters_list]; one unit of fuel per turn. *)
Fixpoint clusters_loop (fuel : nat) (r : Fat16Reader)
    (clusters_list : list Z) (next_cluster_tuple : bool * Z)
  : outcome (list Z) :=
  if fst next_cluster_tuple then
    match fuel with
    | O => OutOfFuel
    | S fuel' =>
        t <- _check_next_in_fat r (snd next_cluster_tuple) ;;
        clusters_loop fuel' r
          (clusters_list ++ [snd next_cluster_tuple]) t
    end
  else Ret clusters_list.

Definition _get_clusters_list (fuel : nat) (r : Fat16Reader)
    (entry : DirectoryEntry.t) : outcome (list Z) :=
  if DirectoryEntry.cluster_number entry =? 0 then Ret []
  else
    next_cluster_tuple <-
      _check_next_in_fat r (DirectoryEntry.cluster_number entry) ;;
    clusters_loop fuel r [DirectoryEntry.cluster_number entry]
      next_cluster_tuple.

(** Offset of a cluster in the image, as [_cd_set_current_entries] and
    [_compose_file] both compute it. *)
Definition cluster_start (r : Fat16Reader) (cluster : Z) : Z :=
  _clusters_offset r
  + _cluster_size r * _sector_size r * (cluster - _fat_cluster_read_start).

(** ** Commands: the reader as state *)

(** A method that may assign to [self]: it takes the reader and gives the
    outcome with the reader as the call leaves it, also when it raises. *)
Definition M (A : Type) : Type := Fat16Reader -> outcome A * Fat16Reader.

Definition mret {A} (a : A) : M A := fun r => (Ret a, r).

Definition mbind {A B} (m : M A) (k : A -> M B) : M B :=
  fun r =>
    match m r with
    | (Ret a, r') => k a r'
    | (Raise e, r') => (Raise e, r')
    | (OutOfFuel, r') => (OutOfFuel, r')
    end.

(** A call that only reads [self]. *)
Definition reading {A} (f : Fat16Reader -> outcome A) : M A :=
  fun r => (f r, r).

Definition assign_current_entries (es : list DirectoryEntry.t) : M unit :=
  fun r => (Ret tt, set_current_entries r es).

Definition raise {A} (e : exn) : M A := fun r => (Raise e, r).

Notation "x <-- m ;; k" := (mbind m (fun x => k))
  (at level 61, m at next level, right associativity).

(** The [for] loop of [_cd_set_current_entries]. *)
Fixpoint cd_extend_loop (linked_list : list Z) : M unit :=
  match linked_list with
  | [] => mret tt
  | cluster :: rest =>
      entries <-- reading (fun r =>
                    _read_directory r (cluster_start r cluster)) ;;
      current <-- reading (fun r => Ret (_current_entries r)) ;;
      _ <-- assign_current_entries (current ++ entries) ;;
      cd_extend_loop rest
  end.

Definition _cd_set_current_entries (linked_list : list Z) : M unit :=
  _ <-- assign_current_entries [] ;;
  cd_extend_loop linked_list.

(** The loop of [_compose_file]: [bytes] is the count still to read and
    [file_bytes] the list of pieces. *)
Fixpoint compose_loop (r : Fat16Reader) (clusters_list : list Z)
    (bytes : Z) (file_bytes : list pybytes) : list pybytes :=
  match clusters_list with
  | [] => file_bytes
  | cluster :: rest =>
      let cluster_bytes := _cluster_size r * _sector_size r in
      let cluster_start := cluster_start r cluster in
      if cluster_bytes <=? bytes then
        compose_loop r rest (bytes - cluster_bytes)
          (file_bytes
             ++ [py_slice (image r) cluster_start
                   (cluster_start + cluster_bytes)])
      else
        compose_loop r rest bytes
          (file_bytes
             ++ [py_slice (image r) cluster_start (cluster_start + bytes)])
  end.

(** [_compose_file]: the file takes [file_bytes[0]]. *)
Definition _compose_file (r : Fat16Reader) (clusters_list : list Z)
    (entry : DirectoryEntry.t) : outcome FileInfo.t :=
  let file_bytes :=
    compose_loop r clusters_list (DirectoryEntry.filesize entry) [] in
  match file_bytes with
  | first :: _ =>
      Ret (FileInfo.mk (DirectoryEntry.filename entry)
             (DirectoryEntry.extension entry)
             (DirectoryEntry.filesize entry) first)
  | [] => Raise IndexError
  end.

(** [ls] *)
Definition ls : M (list DirectoryEntry.t) :=
  reading (fun r => Ret (_current_entries r)).

(** The condition of the [if] in the loop of [cd]. *)
Definition cd_matches (directory_name : pystr) (entry : DirectoryEntry.t)
  : bool :=
  py_in "directory" (DirectoryEntry.attributes entry)
  && pystr_eqb (DirectoryEntry.filename entry) directory_name.

(** Body of that [if]. *)
Definition cd_enter (fuel : nat) (entry : DirectoryEntry.t) : M unit :=
  clusters_linked_list <--
    reading (fun r => _get_clusters_list fuel r entry) ;;
  if 0 <? len clusters_linked_list then
    _cd_set_current_entries clusters_linked_list
  else
    entries <-- reading (fun r =>
                  _read_directory r (_root_directory_offset r)) ;;
    assign_current_entries entries.

(** The loop of [cd] runs over the list object that [self._current_entries]
    names when the loop starts; the assignments inside bind the attribute
    to new lists and leave that object as it is. *)
Fixpoint cd_loop (fuel : nat) (directory_name : pystr)
    (entries : list DirectoryEntry.t) (found : bool) : M bool :=
  match entries with
  | [] => mret found
  | entry :: rest =>
      if cd_matches directory_name entry then
        _ <-- cd_enter fuel entry ;;
        cd_loop fuel directory_name rest true
      else cd_loop fuel directory_name rest found
  end.

(** [cd]; [None] is the value returned after the message is printed (the
    printing itself is left out). *)
Definition cd (fuel : nat) (directory_name : pystr)
  : M (option (list DirectoryEntry.t)) :=
  entries <-- reading (fun r => Ret (_current_entries r)) ;;
  found <-- cd_loop fuel directory_name entries false ;;
  do_print <-- reading (fun r => Ret (do_print_on_commands r)) ;;
  if negb found && do_print then mret None
  else if negb found && negb do_print then raise NotADirectoryException
  else
    current <-- reading (fun r => Ret (_current_entries r)) ;;
    mret (Some current).

Definition is_file_entry (entry : DirectoryEntry.t) : bool :=
  py_in "archive" (DirectoryEntry.attributes entry)
  || py_in "read_only" (DirectoryEntry.attributes entry).

(** The loop of [open_file]: [found] and the local [file], unbound until
    the first assignment. *)
Fixpoint open_file_loop (fuel : nat) (filename : pystr)
    (entries : list DirectoryEntry.t) (found : bool)
    (file : option FileInfo.t) : M (bool * option FileInfo.t) :=
  match entries with
  | [] => mret (found, file)
  | entry :: rest =>
      if pystr_eqb (DirectoryEntry.filename entry) filename then
        if is_file_entry entry then
          clusters_list <--
            reading (fun r => _get_clusters_list fuel r entry) ;;
          new_file <--
            reading (fun r => _compose_file r clusters_list entry) ;;
          open_file_loop fuel filename rest true (Some new_file)
        else open_file_loop fuel filename rest true file
      else open_file_loop fuel filename rest found file
  end.

(** [open_file]; [None] is the value returned after the message is
    printed. *)
Definition open_file (fuel : nat) (filename : pystr)
  : M (option FileInfo.t) :=
  entries <-- reading (fun r => Ret (_current_entries r)) ;;
  state <-- open_file_loop fuel filename entries false None ;;
  let found := fst state in
  do_print <-- reading (fun r => Ret (do_print_on_commands r)) ;;
  if negb found && do_print then mret None
  else if negb found && negb do_print then raise NotAFileException
  else
    match snd state with
    | Some file => mret (Some file)
    | None => raise UnboundLocalError
    end.

(** ** Vocabulary of the specification *)

(** The error kinds the specification names, and the kind a Python
    exception of the reader stands for.  An access outside the image shows
    as [IndexError] or [struct.error]; the reader has no exception for the
    other kinds. *)
Inductive error_kind : Type :=
| OutOfBounds
| ImageTooSmall
| NotADirectory
| NotAFile
| ChainTooLong
| FreeClusterInChain
| BadSectorInChain
| TruncatedFile.

Definition kind_of (e : exn) : option error_kind :=
  match e with
  | IndexError => Some OutOfBounds
  | StructError => Some OutOfBounds
  | NotADirectoryException => Some NotADirectory
  | NotAFileException => Some NotAFile
  | UnicodeDecodeError => None
  | UnboundLocalError => None
  | ClusterOffsetException => None
  end.

Definition fails_with {A} (o : outcome A) (k : error_kind) : Prop :=
  exists e, o = Raise e /\ kind_of e = Some k.

(** The 16-bit FAT entry of a cluster. *)
Definition fat_entry (r : Fat16Reader) (cluster : Z) : outcome Z :=
  _read_ushort r (_fat_offset r + cluster * 2).

(** End-of-file markers as the specification gives them. *)
Definition is_eof_marker (v : Z) : bool := in_range 0xFFF8 0xFFFF v.

(** Values the reader stops a walk at. *)
Definition is_notable (v : Z) : bool :=
  dict_has_key _fat_16_notable_values v.

(** [fat_chain r c cs v]: following the FAT from cluster [c] visits the
    clusters [cs], each entry but the last naming the next cluster, and the
    entry of the last cluster holds [v]. *)
Inductive fat_chain (r : Fat16Reader) : Z -> list Z -> Z -> Prop :=
| fat_chain_last c v :
    fat_entry r c = Ret v ->
    fat_chain r c [c] v
| fat_chain_link c c' cs v :
    fat_entry r c = Ret c' ->
    is_notable c' = false ->
    is_eof_marker c' = false ->
    fat_chain r c' cs v ->
    fat_chain r c (c :: cs) v.

(** [slots_to r offset es stop]: the consecutive 32-byte slots from
    [offset] up to, and without, the one at [stop] all start with a byte
    other than 0x00 and decode to [es], in this order. *)
Inductive slots_to (r : Fat16Reader)
  : Z -> list DirectoryEntry.t -> Z -> Prop :=
| slots_to_here offset :
    slots_to r offset [] offset
| slots_to_entry offset first e es stop :
    py_index (image r) offset = Ret first ->
    first <> 0 ->
    _read_entry r offset = Ret e ->
    slots_to r (offset + 32) es stop ->
    slots_to r offset (e :: es) stop.

(** [slots r offset es]: the slots from [offset] decode to [es] and the
    slot after them is the first one that starts with 0x00. *)
Definition slots (r : Fat16Reader) (offset : Z)
    (es : list DirectoryEntry.t) : Prop :=
  exists stop,
    slots_to r offset es stop /\ py_index (image r) stop = Ret 0.

(** File content as the specification assembles it: each cluster of the
    chain gives [min remaining capacity] bytes from its base, in chain
    order; [None] stands for the failure [TruncatedFile] of a chain that
    ends before [size_bytes] are read. *)
Fixpoint spec_file_content (r : Fat16Reader) (chain : list Z)
    (remaining : Z) : option pybytes :=
  if remaining <=? 0 then Some []
  else
    match chain with
    | [] => None
    | cluster :: chain' =>
        let capacity := _cluster_size r * _sector_size r in
        let n := Z.min remaining capacity in
        match spec_file_content r chain' (remaining - n) with
        | Some rest =>
            Some (py_slice (image r) (cluster_start r cluster)
                    (cluster_start r cluster + n) ++ rest)
        | None => None
        end
    end.

(** Two readers over the same image and geometry: they differ at most in
    [_current_entries]. *)
Definition same_disk (r r' : Fat16Reader) : Prop :=
  r' = set_current_entries r (_current_entries r').

(** The name test of [open_file]. *)
Definition name_is (name : pystr) (e : DirectoryEntry.t) : bool :=
  pystr_eqb (DirectoryEntry.filename e) name.

(** The attribute bits as the specification lists them: bit number and
    flag. *)
Definition flag_bits : list (Z * string) :=
  [ (0, "read_only"%string); (1, "hidden"%string); (2, "system"%string);
    (3, "volume_id"%string); (4, "directory"%string);
    (5, "archive"%string) ].

(** The exceptions of the byte accesses and of name decoding. *)
Definition read_error (x : exn) : Prop :=
  x = IndexError \/ x = StructError \/ x = UnicodeDecodeError.

Definition raises_only {A} (P : exn -> Prop) (o : outcome A) : Prop :=
  forall x, o = Raise x -> P x.

(** ** Sample images

    Small FAT16 images in the layout of the reference image of the tests:
    one reserved sector, one copy of the FAT, a root directory of four
    slots, clusters of one sector; sectors of 128 bytes keep them short. *)
Module Sample.

Definition B (z : Z) : byte :=
  match Byte.of_N (Z.to_N (z mod 256)) with
  | Some b => b
  | None => x00
  end.

Definition zeros (n : nat) : pybytes := repeat x00 n.

Definition le16 (v : Z) : pybytes := [B v; B (v / 256)].

Definition le32 (v : Z) : pybytes :=
  [B v; B (v / 256); B (v / 65536); B (v / 16777216)].

Definition ascii (s : string) : pybytes :=
  map byte_of_ascii (list_ascii_of_string s).

Definition pad_to (n : nat) (l : pybytes) : pybytes :=
  l ++ zeros (n - List.length l).

Definition sector : nat := 128.

Definition boot_sector : pybytes :=
  pad_to sector
    (zeros 11 ++ le16 (Z.of_nat sector) ++ [B 1] ++ le16 1 ++ [B 1]
       ++ le16 4 ++ zeros 3 ++ le16 1).

(** A 32-byte directory slot from its raw fields. *)
Definition slot (name : pybytes) (ext : string) (attr cluster size : Z)
  : pybytes :=
  name ++ ascii ext ++ [B attr] ++ zeros 2 ++ le16 0x6000 ++ le16 0x5821
    ++ zeros 8 ++ le16 cluster ++ le32 size.

Definition fat_table (entries : list Z) : pybytes :=
  pad_to sector (List.concat (map le16 entries)).

Definition mk_image (fat : list Z) (root : list pybytes)
    (clusters : list pybytes) : pybytes :=
  boot_sector ++ fat_table fat ++ pad_to sector (List.concat root)
    ++ List.concat (map (pad_to sector) clusters).

Definition dummy := slot (ascii "DUMMY   ") "   " 0x08 0 0.
Definition test_dir := slot (ascii "TEST    ") "   " 0x10 2 0.
Definition hello := slot (ascii "HELLO   ") "TXT" 0x20 3 200.
Definition dot := slot (ascii ".       ") "   " 0x10 2 0.
Definition dotdot := slot (ascii "..      ") "   " 0x10 0 0.
Definition one := slot (ascii "ONE     ") "TXT" 0x20 5 4.
(** A deleted file: 0xE5 in place of the first letter of its name. *)
Definition deleted := slot (B 0xE5 :: ascii "LD     ") "TXT" 0x20 6 4.

Definition hello_1 : pybytes := repeat (B 97) 128.
Definition hello_2 : pybytes := repeat (B 98) 72.
Definition one_data : pybytes := ascii "one" ++ [B 10].

Definition fat_ok : list Z := [0xFFF8; 0xFFFF; 0xFFFF; 4; 0xFFF8; 0xFFFF].

(** Root: DUMMY, TEST, HELLO.TXT (clusters 3 and 4); TEST in cluster 2:
    [.], [..], ONE.TXT (cluster 5). *)
Definition image_ok : pybytes :=
  mk_image fat_ok [dummy; test_dir; hello]
    [dot ++ dotdot ++ one; hello_1; hello_2; one_data].

(** The same with the end of ONE.TXT marked by 0xFFF9. *)
Definition image_fff9 : pybytes :=
  mk_image [0xFFF8; 0xFFFF; 0xFFFF; 4; 0xFFF8; 0xFFF9]
    [dummy; test_dir; hello]
    [dot ++ dotdot ++ one; hello_1; hello_2; one_data].


(** The same with HELLO.TXT cut to one cluster in the FAT. *)
Definition image_short : pybytes :=
  mk_image [0xFFF8; 0xFFFF; 0xFFFF; 0xFFFF; 0; 0xFFFF]
    [dummy; test_dir; hello]
    [dot ++ dotdot ++ one; hello_1; hello_2; one_data].

(** TEST holds a deleted file before ONE.TXT. *)
Definition image_deleted : pybytes :=
  mk_image fat_ok [dummy; test_dir; hello]
    [dot ++ deleted ++ one; hello_1; hello_2; one_data].


Definition reader_of (img : pybytes) : Fat16Reader :=
  match init img false with
  | Ret r => r
  | _ => mkReader false img [] 0 0 0 0 0 0 0 0 0 0 0 []
  end.

Definition reader_ok := reader_of image_ok.
Definition reader_fff9 := reader_of image_fff9.
Definition reader_short := reader_of image_short.
Definition reader_deleted := reader_of image_deleted.

(** The readers after [cd("TEST")]. *)
Definition in_test (r : Fat16Reader) : Fat16Reader :=
  snd (cd 4 (str "TEST") r).

(** Entries as [_read_entry] decodes them from the slots above. *)
Definition entry (name ext : string) (attrs : list string)
    (cluster size : Z) : DirectoryEntry.t :=
  DirectoryEntry.mk (str name) (str ext) attrs 0x5821 0x6000 cluster size.

Definition entry_test := entry "TEST" EmptyString ["directory"%string] 2 0.
Definition entry_hello := entry "HELLO" "TXT" ["archive"%string] 3 200.
Definition entry_dot := entry "." EmptyString ["directory"%string] 2 0.
Definition entry_dot6 := entry "." EmptyString ["directory"%string] 6 0.
Definition entry_dotdot := entry ".." EmptyString ["directory"%string] 0 0.
Definition entry_one := entry "ONE" "TXT" ["archive"%string] 5 4.

End Sample.

(** ** Vocabulary of the further properties *)

(** [fat_links r c cs v]: the clusters [cs] a walk from [c] goes through;
    the FAT entry of each but the last is the next one and is not in the
    table of notable values, the entry [v] of the last one is. *)
Inductive fat_links (r : Fat16Reader) : Z -> list Z -> Z -> Prop :=
| fat_links_last c v :
    fat_entry r c = Ret v ->
    is_notable v = true ->
    fat_links r c [c] v
| fat_links_next c c' cs v :
    fat_entry r c = Ret c' ->
    is_notable c' = false ->
    fat_links r c' cs v ->
    fat_links r c (c :: cs) v.

(** The little-endian value of the two bytes at [offset] and [offset + 1],
    read one by one. *)
Definition ushort_of_bytes (img : pybytes) (offset : Z) : outcome Z :=
  b0 <- py_index img offset ;;
  b1 <- py_index img (offset + 1) ;;
  Ret (b0 + 256 * b1).

(** The same for the four bytes from [offset]. *)
Definition uint_of_bytes (img : pybytes) (offset : Z) : outcome Z :=
  b0 <- py_index img offset ;;
  b1 <- py_index img (offset + 1) ;;
  b2 <- py_index img (offset + 2) ;;
  b3 <- py_index img (offset + 3) ;;
  Ret (b0 + 256 * b1 + 65536 * b2 + 16777216 * b3).

(** A string that neither starts nor ends with a whitespace character. *)
Definition trimmed (s : pystr) : Prop :=
  (forall c rest, s = c :: rest -> is_space c = false)
  /\ (forall front c, s = front ++ [c] -> is_space c = false).

(** Both tests of [open_file] on an entry. *)
Definition opens (name : pystr) (e : DirectoryEntry.t) : bool :=
  name_is name e && is_file_entry e.

(** A caller that issues commands one after the other and goes on after an
    exception: the reader as each call leaves it is the reader of the
    next. *)
Inductive command : Type :=
| Ls
| Cd (directory_name : pystr)
| OpenFile (filename : pystr).

Definition run_command (fuel : nat) (r : Fat16Reader) (c : command)
  : Fat16Reader :=
  match c with
  | Ls => snd (ls r)
  | Cd directory_name => snd (cd fuel directory_name r)
  | OpenFile filename => snd (open_file fuel filename r)
  end.

Definition run_commands (fuel : nat) (commands : list command)
    (r : Fat16Reader) : Fat16Reader :=
  fold_left (run_command fuel) commands r.

(** A sample image with a directory that fills its first cluster: BIG has
    the chain 2, 3, with four entries in cluster 2 and one in cluster 3;
    the files are empty and have no cluster. *)
Module SampleLong.

Definition big_dir := Sample.slot (Sample.ascii "BIG     ") "   " 0x10 2 0.
Definition dot := Sample.slot (Sample.ascii ".       ") "   " 0x10 2 0.
Definition file_a := Sample.slot (Sample.ascii "A       ") "TXT" 0x20 0 0.
Definition file_b := Sample.slot (Sample.ascii "B       ") "TXT" 0x20 0 0.
Definition file_c := Sample.slot (Sample.ascii "C       ") "TXT" 0x20 0 0.

Definition image_long : pybytes :=
  Sample.mk_image [0xFFF8; 0xFFFF; 3; 0xFFFF] [big_dir]
    [dot ++ Sample.dotdot ++ file_a ++ file_b; file_c].

Definition reader_long := Sample.reader_of image_long.

Definition entry_big :=
  Sample.entry "BIG" EmptyString ["directory"%string] 2 0.
Definition entry_a := Sample.entry "A" "TXT" ["archive"%string] 0 0.
Definition entry_b := Sample.entry "B" "TXT" ["archive"%string] 0 0.
Definition entry_c := Sample.entry "C" "TXT" ["archive"%string] 0 0.

End SampleLong.

(** Two more sample images on the clusters of [Sample.image_ok]: one whose
    root has two directories TEST, the first with start cluster 9, behind
    the end of the image, the second with cluster 2; and one whose root
    has two files of the name F, F.TXT on the clusters 3, 4 and F.DAT on
    cluster 5. *)
Module SampleMore.

Definition f_txt := Sample.slot (Sample.ascii "F       ") "TXT" 0x20 3 10.
Definition f_dat := Sample.slot (Sample.ascii "F       ") "DAT" 0x20 5 4.

Definition clusters : list pybytes :=
  [Sample.dot ++ Sample.dotdot ++ Sample.one; Sample.hello_1;
   Sample.hello_2; Sample.one_data].


Definition image_two_files : pybytes :=
  Sample.mk_image Sample.fat_ok [f_txt; f_dat] clusters.

Definition reader_two_files := Sample.reader_of image_two_files.

Definition entry_f_txt := Sample.entry "F" "TXT" ["archive"%string] 3 10.
Definition entry_f_dat := Sample.entry "F" "DAT" ["archive"%string] 5 4.

End SampleMore.

(** * Properties of the embedding *)

(** ** Arithmetic of the byte accesses *)

Ltac zbool :=
  repeat match goal with
  | H : andb _ _ = true |- _ => apply andb_true_iff in H; destruct H
  | H : (_ <? _) = true |- _ => apply Z.ltb_lt in H
  | H : (_ <? _) = false |- _ => apply Z.ltb_ge in H
  | H : (_ <=? _) = true |- _ => apply Z.leb_le in H
  | H : (_ <=? _) = false |- _ => apply Z.leb_gt in H
  | H : (_ =? _) = true |- _ => apply Z.eqb_eq in H
  | H : (_ =? _) = false |- _ => apply Z.eqb_neq in H
  end.

Lemma byte_val_range (b : byte) : 0 <= byte_val b < 256.
Proof.
  unfold byte_val. pose proof (Byte.to_N_bounded b). lia.
Qed.

Lemma py_index_Ret_range (img : pybytes) (i v : Z) :
  py_index img i = Ret v -> - len img <= i < len img.
Proof.
  unfold py_index.
  destruct (i <? 0) eqn:Hneg;
    destruct (_ && _) eqn:Hin; try discriminate;
    intros _; zbool; lia.
Qed.

Lemma py_index_nonneg (img : pybytes) (i : Z) :
  0 <= i ->
  py_index img i =
    match nth_error img (Z.to_nat i) with
    | Some b => Ret (byte_val b)
    | None => Raise IndexError
    end.
Proof.
  intros Hi. unfold py_index.
  destruct (i <? 0) eqn:Hneg; zbool; [lia|].
  destruct (_ && _) eqn:Hin; [reflexivity|].
  destruct (nth_error img (Z.to_nat i)) eqn:Hnth; [|reflexivity].
  assert (Z.to_nat i < List.length img)%nat
    by (apply nth_error_Some; congruence).
  apply andb_false_iff in Hin. unfold len in Hin.
  destruct Hin; zbool; lia.
Qed.

Lemma py_slice_length_le {A} (l : list A) (a b : Z) :
  a <= b -> len (py_slice l a b) <= b - a.
Proof.
  intros Hab.
  unfold py_slice, adjust_index, len.
  rewrite length_firstn, length_skipn.
  destruct (a <? 0) eqn:Ha; destruct (b <? 0) eqn:Hb; zbool; lia.
Qed.

Lemma py_slice_nonneg {A} (l : list A) (a b : Z) :
  0 <= a <= b ->
  py_slice l a b = firstn (Z.to_nat (b - a)) (skipn (Z.to_nat a) l).
Proof.
  intros Hab. unfold py_slice, adjust_index, len.
  destruct (a <? 0) eqn:Ha; destruct (b <? 0) eqn:Hb; zbool; try lia.
  destruct (Z_le_gt_dec a (Z.of_nat (List.length l))) as [Hle|Hgt].
  - rewrite (Z.min_l a) by lia.
    destruct (Z_le_gt_dec b (Z.of_nat (List.length l))) as [Hble|Hbgt].
    + rewrite (Z.min_l b) by lia. reflexivity.
    + rewrite (Z.min_r b) by lia.
      rewrite !firstn_all2; [reflexivity| |];
        rewrite length_skipn; lia.
  - rewrite (Z.min_r a), (Z.min_r b) by lia.
    rewrite Z.sub_diag. simpl.
    rewrite (skipn_all2 (n := Z.to_nat a)) by lia.
    now rewrite firstn_nil.
Qed.

Lemma py_slice_inside {A} (l : list A) (a b : Z) :
  0 <= a <= b -> b <= len l -> len (py_slice l a b) = b - a.
Proof.
  intros Hab Hb. rewrite py_slice_nonneg by assumption.
  unfold len in *. rewrite length_firstn, length_skipn. lia.
Qed.

Lemma read_ushort_short (img : pybytes) (offset : Z) :
  0 <= offset -> len img < offset + 2 ->
  read_ushort_at img offset = Raise StructError.
Proof.
  intros Hoff Hlen. unfold read_ushort_at.
  rewrite py_slice_nonneg by lia.
  assert (Hs : (List.length (firstn (Z.to_nat (offset + 2 - offset))
                               (skipn (Z.to_nat offset) img)) < 2)%nat).
  { rewrite length_firstn, length_skipn. unfold len in Hlen. lia. }
  destruct (firstn _ _) as [|b0 [|b1 [|b2 s]]]; simpl in Hs;
    try reflexivity; lia.
Qed.

Lemma read_ushort_inside (img : pybytes) (offset : Z) :
  0 <= offset -> offset + 2 <= len img ->
  exists v, read_ushort_at img offset = Ret v /\ 0 <= v < 65536.
Proof.
  intros Hoff Hlen. unfold read_ushort_at.
  pose proof (py_slice_inside img offset (offset + 2)) as Hs.
  unfold len in Hs at 2.
  destruct (py_slice img offset (offset + 2)) as [|b0 [|b1 [|b2 s]]];
    simpl in Hs; try lia.
  exists (byte_val b0 + 256 * byte_val b1). split; [reflexivity|].
  pose proof (byte_val_range b0). pose proof (byte_val_range b1). lia.
Qed.

Lemma py_index_inside (img : pybytes) (i : Z) :
  0 <= i < len img -> exists v, py_index img i = Ret v /\ 0 <= v < 256.
Proof.
  intros Hi. rewrite py_index_nonneg by lia.
  destruct (nth_error img (Z.to_nat i)) as [b|] eqn:Hnth.
  - exists (byte_val b). split; [reflexivity | apply byte_val_range].
  - apply nth_error_None in Hnth. unfold len in Hi. lia.
Qed.

(** ** Outcomes *)

Lemma bind_Ret_inv {A B} (m : outcome A) (k : A -> outcome B) (b : B) :
  bind m k = Ret b -> exists a, m = Ret a /\ k a = Ret b.
Proof.
  destruct m as [a| |]; simpl; try discriminate. intros H. now exists a.
Qed.

Lemma bind_halts {A B} (m : outcome A) (k : A -> outcome B) :
  halts m -> (forall a, halts (k a)) -> halts (bind m k).
Proof.
  unfold halts. destruct m as [a| |]; simpl; intros Hm Hk;
    [apply Hk | discriminate | congruence].
Qed.

Lemma py_index_halts (img : pybytes) (i : Z) : halts (py_index img i).
Proof.
  unfold halts, py_index.
  destruct (_ && _); [destruct (nth_error _ _)|]; discriminate.
Qed.

Lemma unpack_H_halts (s : pybytes) : halts (unpack_H s).
Proof.
  unfold halts. destruct s as [|b0 [|b1 [|b2 s]]]; discriminate.
Qed.

Lemma unpack_I_halts (s : pybytes) : halts (unpack_I s).
Proof.
  unfold halts.
  destruct s as [|b0 [|b1 [|b2 [|b3 [|b4 s]]]]]; discriminate.
Qed.

Lemma utf8_decode_halts (s : pybytes) : halts (utf8_decode s).
Proof.
  assert (H : forall n s, (List.length s <= n)%nat -> halts (utf8_decode s)).
  { clear s. induction n as [|n IH]; intros s Hlen.
    - destruct s; [discriminate | simpl in Hlen; lia].
    - destruct s as [|b0 s1]; [discriminate|].
      simpl in Hlen. cbn [utf8_decode].
      assert (Hrest : forall t x,
                 (List.length t <= n)%nat ->
                 halts (rest <- utf8_decode t ;; Ret (x :: rest))).
      { intros t x Ht. apply bind_halts; [now apply IH | discriminate]. }
      cbv zeta.
      destruct (byte_val b0 <? 128); [apply Hrest; lia|].
      destruct (in_range 194 223 (byte_val b0)).
      { destruct s1 as [|b1 s2]; [discriminate|].
        destruct (is_cont (byte_val b1)); [|discriminate].
        apply Hrest. simpl in Hlen. lia. }
      destruct (in_range 224 239 (byte_val b0)).
      { destruct s1 as [|b1 [|b2 s3]]; try discriminate.
        destruct (_ && _); [|discriminate].
        apply Hrest. simpl in Hlen. lia. }
      destruct (in_range 240 244 (byte_val b0)); [|discriminate].
      destruct s1 as [|b1 [|b2 [|b3 s4]]]; try discriminate.
      destruct (_ && _); [|discriminate].
      apply Hrest. simpl in Hlen. lia. }
  now apply (H (List.length s)).
Qed.

Lemma _read_ushort_halts (r : Fat16Reader) (offset : Z) :
  halts (_read_ushort r offset).
Proof. apply unpack_H_halts. Qed.

Lemma _read_entry_halts (r : Fat16Reader) (offset : Z) :
  halts (_read_entry r offset).
Proof.
  unfold _read_entry.
  repeat (apply bind_halts;
          [first [apply utf8_decode_halts | apply py_index_halts
                 | apply _read_ushort_halts | apply unpack_I_halts]
          | intros ?]).
  discriminate.
Qed.

(** ** Reading a directory *)

(** The turns given to the loop of [_read_directory] are never used up. *)
Lemma read_directory_loop_halts (turns : nat) (r : Fat16Reader) :
  forall offset entries,
    (- len (image r) <= offset -> len (image r) - offset <= Z.of_nat turns) ->
    halts (read_directory_loop turns r offset entries).
Proof.
  induction turns as [|turns IH]; intros offset entries Hturns;
    cbn [read_directory_loop];
    (destruct (py_index (image r) offset) as [first| |] eqn:Hindex;
     [ | discriminate | now destruct (py_index_halts (image r) offset)]);
    apply py_index_Ret_range in Hindex; cbn [bind];
    (destruct (first =? 0); [discriminate|]).
  - lia.
  - pose proof (_read_entry_halts r offset) as Hentry.
    destruct (_read_entry r offset) as [e| |]; cbn [bind];
      [ | discriminate | now destruct Hentry].
    apply IH. unfold _entry_size. lia.
Qed.

Lemma _read_directory_halts (r : Fat16Reader) (offset : Z) :
  halts (_read_directory r offset).
Proof.
  apply read_directory_loop_halts. unfold read_directory_turns, len. lia.
Qed.

Lemma slots_to_loop (r : Fat16Reader) (offset : Z)
    (es : list DirectoryEntry.t) (stop : Z) :
  slots_to r offset es stop ->
  forall turns acc,
    len (image r) - offset <= Z.of_nat turns ->
    exists turns',
      len (image r) - stop <= Z.of_nat turns' /\
      read_directory_loop turns r offset acc =
        read_directory_loop turns' r stop (acc ++ es).
Proof.
  induction 1 as [offset | offset first e es stop Hfirst Hnz Hentry Hrest IH];
    intros turns acc Hturns.
  - exists turns. now rewrite app_nil_r.
  - destruct turns as [|turns].
    { apply py_index_Ret_range in Hfirst. lia. }
    destruct (IH turns (acc ++ [e])) as (turns' & Hturns' & Hloop).
    { lia. }
    exists turns'. split; [assumption|].
    cbn [read_directory_loop]. rewrite Hfirst. cbn [bind].
    apply Z.eqb_neq in Hnz. rewrite Hnz, Hentry. cbn [bind].
    unfold _entry_size. rewrite Hloop, <- app_assoc. reflexivity.
Qed.

Lemma loop_slots (turns : nat) (r : Fat16Reader) :
  forall offset acc es,
    read_directory_loop turns r offset acc = Ret es ->
    exists tail, es = acc ++ tail /\ slots r offset tail.
Proof.
  induction turns as [|turns IH]; intros offset acc es;
    cbn [read_directory_loop];
    (destruct (py_index (image r) offset) as [first| |] eqn:Hindex;
     cbn [bind]; try discriminate);
    (destruct (first =? 0) eqn:Hzero; zbool;
     [ intros [= <-]; exists []; rewrite app_nil_r; split; [reflexivity|];
       exists offset; split; [constructor | now subst first]
     | ]); try discriminate.
  destruct (_read_entry r offset) as [e| |] eqn:Hentry; cbn [bind];
    try discriminate.
  intros Hloop. apply IH in Hloop as (tail & -> & (stop & Hto & Hend)).
  exists (e :: tail). rewrite <- app_assoc. split; [reflexivity|].
  exists stop. split; [|assumption].
  now apply slots_to_entry with (first := first).
Qed.

Lemma slots_to_first (r : Fat16Reader) (offset : Z)
    (es : list DirectoryEntry.t) (stop : Z) :
  slots_to r offset es stop ->
  (exists v, py_index (image r) stop = Ret v) ->
  exists v, py_index (image r) offset = Ret v.
Proof.
  intros [ | ? first ? ? ? Hfirst ] Hstop; [assumption|now exists first].
Qed.

Lemma _read_directory_turns_enough (r : Fat16Reader) (offset v : Z) :
  py_index (image r) offset = Ret v ->
  len (image r) - offset <= Z.of_nat (read_directory_turns r).
Proof.
  intros H. apply py_index_Ret_range in H.
  unfold read_directory_turns, len in *. lia.
Qed.

Lemma _read_directory_slots (r : Fat16Reader) (offset : Z)
    (es : list DirectoryEntry.t) :
  _read_directory r offset = Ret es <-> slots r offset es.
Proof.
  split.
  - intros H. apply loop_slots in H as (tail & -> & Hslots). exact Hslots.
  - intros (stop & Hto & Hend).
    destruct (slots_to_first _ _ _ _ Hto) as (v & Hv); [now exists 0|].
    destruct (slots_to_loop _ _ _ _ Hto (read_directory_turns r) [])
      as (turns' & _ & Hloop).
    { now apply _read_directory_turns_enough with (v := v). }
    unfold _read_directory. rewrite Hloop.
    destruct turns'; cbn [read_directory_loop]; rewrite Hend; reflexivity.
Qed.

Lemma _read_directory_raises (r : Fat16Reader) (offset : Z)
    (es : list DirectoryEntry.t) (stop first : Z) (x : exn) :
  slots_to r offset es stop ->
  py_index (image r) stop = Ret first -> first <> 0 ->
  _read_entry r stop = Raise x ->
  _read_directory r offset = Raise x.
Proof.
  intros Hto Hfirst Hnz Hentry.
  destruct (slots_to_first _ _ _ _ Hto) as (v & Hv); [now exists first|].
  destruct (slots_to_loop _ _ _ _ Hto (read_directory_turns r) [])
    as (turns' & Hturns' & Hloop).
  { now apply _read_directory_turns_enough with (v := v). }
  unfold _read_directory. rewrite Hloop.
  apply Z.eqb_neq in Hnz.
  destruct turns'; cbn [read_directory_loop]; rewrite Hfirst; cbn [bind];
    rewrite Hnz.
  - apply py_index_Ret_range in Hfirst. lia.
  - now rewrite Hentry.
Qed.

Lemma nth_error_skipn {A} (l : list A) :
  forall n x, nth_error l n = Some x -> skipn n l = x :: skipn (S n) l.
Proof.
  induction l as [|y l IH]; intros [|n] x H; simpl in H; try discriminate.
  - now injection H as ->.
  - now apply IH.
Qed.

Lemma utf8_decode_E5 (b0 b1 : byte) (s : pybytes) :
  byte_val b0 = 0xE5 -> is_cont (byte_val b1) = false ->
  utf8_decode (b0 :: b1 :: s) = Raise UnicodeDecodeError.
Proof.
  intros H0 H1. cbn [utf8_decode]. rewrite H0. cbv zeta.
  change (229 <? 128) with false. change (in_range 194 223 229) with false.
  change (in_range 224 239 229) with true. cbv iota.
  destruct s as [|b2 s3]; [reflexivity|].
  change (229 =? 224) with false. change (229 =? 237) with false.
  cbv iota. rewrite H1. reflexivity.
Qed.

(** A slot that starts with 0xE5 and goes on with a byte that does not
    continue a UTF-8 sequence has no decoding. *)
Lemma _read_entry_deleted (r : Fat16Reader) (offset c1 : Z) :
  0 <= offset ->
  py_index (image r) offset = Ret 0xE5 ->
  py_index (image r) (offset + 1) = Ret c1 ->
  is_cont c1 = false ->
  _read_entry r offset = Raise UnicodeDecodeError.
Proof.
  intros Hoff H0 H1 Hc1.
  rewrite py_index_nonneg in H0, H1 by lia.
  destruct (nth_error (image r) (Z.to_nat offset)) as [b0|] eqn:Hn0;
    [|discriminate].
  destruct (nth_error (image r) (Z.to_nat (offset + 1))) as [b1|] eqn:Hn1;
    [|discriminate].
  injection H0 as Hb0. injection H1 as Hb1.
  apply nth_error_skipn in Hn0.
  replace (Z.to_nat (offset + 1)) with (S (Z.to_nat offset)) in Hn1 by lia.
  apply nth_error_skipn in Hn1.
  unfold _read_entry. rewrite py_slice_nonneg by lia.
  replace (Z.to_nat (offset + 8 - offset)) with 8%nat by lia.
  rewrite Hn0, Hn1.
  change (firstn 8 (b0 :: b1 :: ?t)) with (b0 :: b1 :: firstn 6 t).
  rewrite utf8_decode_E5 by (rewrite ?Hb1; assumption). reflexivity.
Qed.

(** ** What the reading methods depend on *)

Lemma same_disk_refl (r : Fat16Reader) : same_disk r r.
Proof. now destruct r. Qed.

Lemma same_disk_set (r : Fat16Reader) (es : list DirectoryEntry.t) :
  same_disk r (set_current_entries r es).
Proof. reflexivity. Qed.

Lemma same_disk_trans (r1 r2 r3 : Fat16Reader) :
  same_disk r1 r2 -> same_disk r2 r3 -> same_disk r1 r3.
Proof.
  unfold same_disk. intros H12 H23. rewrite H23, H12. reflexivity.
Qed.

Lemma same_disk_entries (r r' : Fat16Reader) :
  same_disk r r' -> _current_entries r' = _current_entries r -> r' = r.
Proof.
  unfold same_disk. intros -> H. simpl in H. rewrite H. now destruct r.
Qed.

Lemma read_directory_loop_set (turns : nat) (r : Fat16Reader)
    (es : list DirectoryEntry.t) :
  forall offset acc,
    read_directory_loop turns (set_current_entries r es) offset acc =
    read_directory_loop turns r offset acc.
Proof.
  induction turns as [|turns IH]; intros offset acc;
    cbn [read_directory_loop];
    change (image (set_current_entries r es)) with (image r);
    [reflexivity|].
  change (_read_entry (set_current_entries r es) offset)
    with (_read_entry r offset).
  destruct (py_index (image r) offset) as [first| |]; cbn [bind];
    try reflexivity.
  destruct (first =? 0); [reflexivity|].
  destruct (_read_entry r offset); cbn [bind]; try reflexivity.
  apply IH.
Qed.

Lemma _read_directory_set (r : Fat16Reader) (es : list DirectoryEntry.t)
    (offset : Z) :
  _read_directory (set_current_entries r es) offset = _read_directory r offset.
Proof. apply read_directory_loop_set. Qed.

Lemma clusters_loop_set (fuel : nat) (r : Fat16Reader)
    (es : list DirectoryEntry.t) :
  forall acc next,
    clusters_loop fuel (set_current_entries r es) acc next =
    clusters_loop fuel r acc next.
Proof.
  induction fuel as [|fuel IH]; intros acc next; cbn [clusters_loop];
    [reflexivity|].
  destruct (fst next); [|reflexivity].
  change (_check_next_in_fat (set_current_entries r es) (snd next))
    with (_check_next_in_fat r (snd next)).
  destruct (_check_next_in_fat r (snd next)); cbn [bind]; try reflexivity.
  apply IH.
Qed.

Lemma _get_clusters_list_set (fuel : nat) (r : Fat16Reader)
    (es : list DirectoryEntry.t) (e : DirectoryEntry.t) :
  _get_clusters_list fuel (set_current_entries r es) e =
  _get_clusters_list fuel r e.
Proof.
  unfold _get_clusters_list. destruct (_ =? 0); [reflexivity|].
  change (_check_next_in_fat (set_current_entries r es)
            (DirectoryEntry.cluster_number e))
    with (_check_next_in_fat r (DirectoryEntry.cluster_number e)).
  destruct (_check_next_in_fat r _); cbn [bind]; try reflexivity.
  apply clusters_loop_set.
Qed.

(** ** The chain walk *)

Lemma check_next_link (r : Fat16Reader) (c c' : Z) :
  fat_entry r c = Ret c' -> is_notable c' = false ->
  _check_next_in_fat r c = Ret (true, c').
Proof.
  unfold fat_entry, is_notable, _check_next_in_fat.
  intros -> Hn. cbn [bind]. now rewrite Hn.
Qed.

Lemma check_next_stop (r : Fat16Reader) (c v : Z) :
  fat_entry r c = Ret v -> is_notable v = true ->
  _check_next_in_fat r c = Ret (false, v).
Proof.
  unfold fat_entry, is_notable, _check_next_in_fat.
  intros -> Hn. cbn [bind]. now rewrite Hn.
Qed.

Lemma fat_chain_head (r : Fat16Reader) (c : Z) (cs : list Z) (v : Z) :
  fat_chain r c cs v -> exists rest, cs = c :: rest.
Proof. intros []; eauto. Qed.

(** A chain that ends at a value of the table is walked to its end. *)
Lemma fat_chain_walk (r : Fat16Reader) (c : Z) (cs : list Z) (v : Z) :
  fat_chain r c cs v -> is_notable v = true ->
  forall fuel acc,
    (List.length cs <= S fuel)%nat ->
    (next <- _check_next_in_fat r c ;;
     clusters_loop fuel r (acc ++ [c]) next) = Ret (acc ++ cs).
Proof.
  intros Hchain Hv.
  induction Hchain as [c v Hc | c c' cs v Hc Hn _ Hrest IH];
    intros fuel acc Hfuel.
  - rewrite (check_next_stop _ _ _ Hc Hv). cbn [bind].
    destruct fuel; reflexivity.
  - rewrite (check_next_link _ _ _ Hc Hn). cbn [bind].
    destruct (fat_chain_head _ _ _ _ Hrest) as (rest & ->).
    destruct fuel as [|fuel]; [simpl in Hfuel; lia|].
    cbn [clusters_loop fst snd].
    rewrite (IH Hv fuel (acc ++ [c])) by (simpl in *; lia).
    now rewrite <- app_assoc.
Qed.

Lemma chain_walk_returns (fuel : nat) (r : Fat16Reader)
    (e : DirectoryEntry.t) (cs : list Z) (v : Z) :
  DirectoryEntry.cluster_number e <> 0 ->
  fat_chain r (DirectoryEntry.cluster_number e) cs v ->
  is_notable v = true ->
  (List.length cs <= S fuel)%nat ->
  _get_clusters_list fuel r e = Ret cs.
Proof.
  intros Hc Hchain Hv Hfuel. unfold _get_clusters_list.
  apply Z.eqb_neq in Hc. rewrite Hc.
  exact (fat_chain_walk _ _ _ _ Hchain Hv fuel [] Hfuel).
Qed.


(** ** The commands and the reader *)

Lemma cd_extend_loop_same_disk (linked_list : list Z) :
  forall r, same_disk r (snd (cd_extend_loop linked_list r)).
Proof.
  induction linked_list as [|cluster rest IH]; intros r;
    cbn [cd_extend_loop]; [apply same_disk_refl|].
  unfold mbind, reading, assign_current_entries.
  destruct (_read_directory r (cluster_start r cluster)) as [es| |];
    try apply same_disk_refl.
  eapply same_disk_trans; [|apply IH]. apply same_disk_set.
Qed.

Lemma cd_enter_same_disk (fuel : nat) (e : DirectoryEntry.t)
    (r : Fat16Reader) :
  same_disk r (snd (cd_enter fuel e r)).
Proof.
  unfold cd_enter, mbind, reading.
  destruct (_get_clusters_list fuel r e) as [cl| |];
    try apply same_disk_refl.
  destruct (0 <? len cl).
  - unfold _cd_set_current_entries, mbind, assign_current_entries.
    eapply same_disk_trans; [|apply cd_extend_loop_same_disk].
    apply same_disk_set.
  - unfold mbind, assign_current_entries.
    destruct (_read_directory r (_root_directory_offset r));
      first [apply same_disk_set | apply same_disk_refl].
Qed.

(** Entering a directory does not look at the entries of the current one. *)
Lemma cd_enter_set (fuel : nat) (e : DirectoryEntry.t) (r : Fat16Reader)
    (es : list DirectoryEntry.t) :
  fst (cd_enter fuel e (set_current_entries r es)) = fst (cd_enter fuel e r)
  /\ (fst (cd_enter fuel e r) = Ret tt ->
      snd (cd_enter fuel e (set_current_entries r es)) =
      snd (cd_enter fuel e r)).
Proof.
  unfold cd_enter, mbind, reading.
  rewrite _get_clusters_list_set.
  destruct (_get_clusters_list fuel r e) as [cl| |];
    try (split; [reflexivity | discriminate]).
  destruct (0 <? len cl).
  - split; reflexivity.
  - change (_root_directory_offset (set_current_entries r es))
      with (_root_directory_offset r).
    rewrite _read_directory_set. unfold assign_current_entries.
    destruct (_read_directory r (_root_directory_offset r));
      (split; [reflexivity | first [reflexivity | discriminate]]).
Qed.

Lemma cd_enter_same (fuel : nat) (e : DirectoryEntry.t)
    (r r' : Fat16Reader) :
  same_disk r r' ->
  fst (cd_enter fuel e r') = fst (cd_enter fuel e r)
  /\ (fst (cd_enter fuel e r) = Ret tt ->
      snd (cd_enter fuel e r') = snd (cd_enter fuel e r)).
Proof. intros ->. apply cd_enter_set. Qed.

Lemma cd_loop_same_disk (fuel : nat) (name : pystr)
    (entries : list DirectoryEntry.t) :
  forall found r, same_disk r (snd (cd_loop fuel name entries found r)).
Proof.
  induction entries as [|e rest IH]; intros found r; cbn [cd_loop];
    [apply same_disk_refl|].
  destruct (cd_matches name e); [|apply IH].
  unfold mbind. pose proof (cd_enter_same_disk fuel e r) as Henter.
  destruct (cd_enter fuel e r) as [[[]| |] r1]; try exact Henter.
  eapply same_disk_trans; [exact Henter | apply IH].
Qed.

Lemma cd_loop_no_match (fuel : nat) (name : pystr)
    (entries : list DirectoryEntry.t) :
  existsb (cd_matches name) entries = false ->
  forall found r, cd_loop fuel name entries found r = (Ret found, r).
Proof.
  induction entries as [|e rest IH]; intros Hno found r; [reflexivity|].
  simpl in Hno. apply orb_false_iff in Hno as [He Hrest].
  cbn [cd_loop]. rewrite He. now apply IH.
Qed.

Lemma cd_loop_app (fuel : nat) (name : pystr)
    (l1 l2 : list DirectoryEntry.t) :
  forall found r,
    cd_loop fuel name (l1 ++ l2) found r =
    (found1 <-- cd_loop fuel name l1 found ;; cd_loop fuel name l2 found1) r.
Proof.
  induction l1 as [|e l1 IH]; intros found r; [reflexivity|].
  cbn [cd_loop app].
  destruct (cd_matches name e); [|apply IH].
  unfold mbind in *.
  destruct (cd_enter fuel e r) as [[[]| |] r1]; try reflexivity.
  apply IH.
Qed.

Lemma cd_loop_found (fuel : nat) (name : pystr)
    (entries : list DirectoryEntry.t) :
  forall found r found' r',
    cd_loop fuel name entries found r = (Ret found', r') ->
    found' = found || existsb (cd_matches name) entries.
Proof.
  induction entries as [|e rest IH]; intros found r found' r';
    cbn [cd_loop existsb].
  - intros [= <- _]. now rewrite orb_false_r.
  - destruct (cd_matches name e).
    + unfold mbind. destruct (cd_enter fuel e r) as [[[]| |] r1];
        try discriminate.
      intros H. apply IH in H. rewrite H. now rewrite orb_true_r.
    + apply IH.
Qed.



Lemma open_file_loop_frame (fuel : nat) (name : pystr)
    (entries : list DirectoryEntry.t) :
  forall found file r,
    snd (open_file_loop fuel name entries found file r) = r.
Proof.
  induction entries as [|e rest IH]; intros found file r;
    cbn [open_file_loop]; [reflexivity|].
  destruct (pystr_eqb _ _); [|apply IH].
  destruct (is_file_entry e); [|apply IH].
  unfold mbind, reading.
  destruct (_get_clusters_list fuel r e) as [cl| |]; try reflexivity.
  destruct (_compose_file r cl e); try reflexivity.
  apply IH.
Qed.

Lemma open_file_frame (fuel : nat) (name : pystr) (r : Fat16Reader) :
  snd (open_file fuel name r) = r.
Proof.
  unfold open_file. unfold mbind at 1. unfold reading at 1.
  unfold mbind at 1.
  pose proof (open_file_loop_frame fuel name (_current_entries r)
                false None r) as Hloop.
  destruct (open_file_loop _ _ _ _ _ r) as [[[found file]| |] r1];
    cbn [snd] in Hloop; subst r1; try reflexivity.
  unfold mbind, reading, mret, raise. cbn [fst snd].
  destruct (negb found && do_print_on_commands r); [reflexivity|].
  destruct (negb found && negb (do_print_on_commands r)); [reflexivity|].
  destruct file; reflexivity.
Qed.

Lemma open_file_loop_no_match (fuel : nat) (name : pystr)
    (entries : list DirectoryEntry.t) :
  existsb (name_is name) entries = false ->
  forall found file r,
    open_file_loop fuel name entries found file r = (Ret (found, file), r).
Proof.
  induction entries as [|e rest IH]; intros Hno found file r;
    [reflexivity|].
  simpl in Hno. apply orb_false_iff in Hno as [He Hrest].
  cbn [open_file_loop]. unfold name_is in He. rewrite He. now apply IH.
Qed.

Lemma open_file_loop_app (fuel : nat) (name : pystr)
    (l1 l2 : list DirectoryEntry.t) :
  forall found file r,
    open_file_loop fuel name (l1 ++ l2) found file r =
    (state <-- open_file_loop fuel name l1 found file ;;
     open_file_loop fuel name l2 (fst state) (snd state)) r.
Proof.
  induction l1 as [|e l1 IH]; intros found file r; [reflexivity|].
  cbn [open_file_loop app].
  destruct (pystr_eqb _ _); [|apply IH].
  destruct (is_file_entry e); [|apply IH].
  unfold mbind, reading in *.
  destruct (_get_clusters_list fuel r e) as [cl| |]; try reflexivity.
  destruct (_compose_file r cl e); try reflexivity.
  apply IH.
Qed.

(** [open_file] on a name that one entry carries, a file entry. *)
Lemma open_file_single (fuel : nat) (name : pystr) (r : Fat16Reader)
    (l1 l2 : list DirectoryEntry.t) (e : DirectoryEntry.t) :
  _current_entries r = l1 ++ e :: l2 ->
  existsb (name_is name) l1 = false ->
  existsb (name_is name) l2 = false ->
  name_is name e = true ->
  is_file_entry e = true ->
  open_file fuel name r =
    ((clusters_list <- _get_clusters_list fuel r e ;;
      file <- _compose_file r clusters_list e ;;
      Ret (Some file)), r).
Proof.
  intros Hentries H1 H2 Hname Hfile. unfold open_file.
  unfold mbind at 1. unfold reading at 1. rewrite Hentries.
  unfold mbind at 1. rewrite open_file_loop_app. unfold mbind at 1.
  rewrite (open_file_loop_no_match _ _ _ H1).
  cbn [open_file_loop fst snd]. unfold name_is in Hname.
  rewrite Hname, Hfile. unfold mbind at 1 2. unfold reading at 1 2.
  destruct (_get_clusters_list fuel r e) as [cl| |]; try reflexivity.
  cbn [bind].
  destruct (_compose_file r cl e) as [f| |]; try reflexivity.
  rewrite (open_file_loop_no_match _ _ _ H2). reflexivity.
Qed.

(** ** Composing a file *)

Lemma compose_loop_head (r : Fat16Reader) (clusters_list : list Z) :
  forall bytes first rest,
    exists tail,
      compose_loop r clusters_list bytes (first :: rest) = first :: tail.
Proof.
  induction clusters_list as [|c cl IH]; intros bytes first rest;
    cbn [compose_loop].
  - now exists rest.
  - cbv zeta. destruct (_ <=? _); cbn [app]; apply IH.
Qed.

Lemma _compose_file_first (r : Fat16Reader) (c : Z) (rest : list Z)
    (e : DirectoryEntry.t) :
  _compose_file r (c :: rest) e =
    Ret (FileInfo.mk (DirectoryEntry.filename e)
           (DirectoryEntry.extension e) (DirectoryEntry.filesize e)
           (py_slice (image r) (cluster_start r c)
              (cluster_start r c
               + Z.min (DirectoryEntry.filesize e)
                   (_cluster_size r * _sector_size r)))).
Proof.
  unfold _compose_file. cbn [compose_loop]. cbv zeta.
  destruct (_ <=? _) eqn:Hle; zbool; cbn [app];
    match goal with
    | |- context [compose_loop r rest ?b (?x :: ?acc)] =>
        let H := fresh in
        assert (H : exists tail,
                   compose_loop r rest b (x :: acc) = x :: tail)
          by exact (compose_loop_head r rest b x acc);
        destruct H as (tail & ->)
    end.
  - now rewrite Z.min_r by lia.
  - now rewrite Z.min_l by lia.
Qed.

(** ** Which exceptions a call can raise *)

Lemma bind_raises_only {A B} (P : exn -> Prop) (m : outcome A)
    (k : A -> outcome B) :
  raises_only P m -> (forall a, raises_only P (k a)) ->
  raises_only P (bind m k).
Proof.
  unfold raises_only. destruct m as [a| |]; simpl; intros Hm Hk x H.
  - exact (Hk a x H).
  - injection H as <-. now apply Hm.
  - discriminate.
Qed.

Ltac raised H :=
  let x := fresh "x" in
  let Hx := fresh "Hx" in
  intros x Hx; cbn in Hx; injection Hx as <-; apply H; reflexivity.

Lemma Ret_raises_only {A} (P : exn -> Prop) (a : A) : raises_only P (Ret a).
Proof. intros x H. discriminate. Qed.

Lemma py_index_raises (img : pybytes) (i : Z) :
  raises_only read_error (py_index img i).
Proof.
  unfold raises_only, py_index, read_error.
  destruct (_ && _); [destruct (nth_error _ _)|];
    intros x H; try discriminate; injection H as <-; auto.
Qed.

Lemma unpack_H_raises (s : pybytes) : raises_only read_error (unpack_H s).
Proof.
  unfold raises_only, read_error.
  destruct s as [|b0 [|b1 [|b2 s]]]; intros x H; try discriminate;
    injection H as <-; auto.
Qed.

Lemma unpack_I_raises (s : pybytes) : raises_only read_error (unpack_I s).
Proof.
  unfold raises_only, read_error.
  destruct s as [|b0 [|b1 [|b2 [|b3 [|b4 s]]]]]; intros x H;
    try discriminate; injection H as <-; auto.
Qed.

Lemma utf8_decode_raises (s : pybytes) :
  raises_only read_error (utf8_decode s).
Proof.
  assert (Hbad : forall A, raises_only read_error
                             (@Raise A UnicodeDecodeError)).
  { intros A x [= <-]. unfold read_error. auto. }
  assert (H : forall n s, (List.length s <= n)%nat ->
                          raises_only read_error (utf8_decode s)).
  { clear s. induction n as [|n IH]; intros s Hlen.
    - destruct s; [apply Ret_raises_only | simpl in Hlen; lia].
    - destruct s as [|b0 s1]; [apply Ret_raises_only|].
      simpl in Hlen. cbn [utf8_decode].
      assert (Hrest : forall t x,
                 (List.length t <= n)%nat ->
                 raises_only read_error
                   (rest <- utf8_decode t ;; Ret (x :: rest))).
      { intros t x Ht. apply bind_raises_only; [now apply IH|].
        intros a. apply Ret_raises_only. }
      cbv zeta.
      destruct (byte_val b0 <? 128); [apply Hrest; lia|].
      destruct (in_range 194 223 (byte_val b0)).
      { destruct s1 as [|b1 s2]; [apply Hbad|].
        destruct (is_cont (byte_val b1)); [|apply Hbad].
        apply Hrest. simpl in Hlen. lia. }
      destruct (in_range 224 239 (byte_val b0)).
      { destruct s1 as [|b1 [|b2 s3]]; try apply Hbad.
        destruct (_ && _); [|apply Hbad].
        apply Hrest. simpl in Hlen. lia. }
      destruct (in_range 240 244 (byte_val b0)); [|apply Hbad].
      destruct s1 as [|b1 [|b2 [|b3 s4]]]; try apply Hbad.
      destruct (_ && _); [|apply Hbad].
      apply Hrest. simpl in Hlen. lia. }
  now apply (H (List.length s)).
Qed.

Lemma _read_ushort_raises (r : Fat16Reader) (offset : Z) :
  raises_only read_error (_read_ushort r offset).
Proof. apply unpack_H_raises. Qed.

Lemma _read_entry_raises (r : Fat16Reader) (offset : Z) :
  raises_only read_error (_read_entry r offset).
Proof.
  unfold _read_entry.
  repeat (apply bind_raises_only;
          [first [apply utf8_decode_raises | apply py_index_raises
                 | apply _read_ushort_raises | apply unpack_I_raises]
          | intros ?]).
  apply Ret_raises_only.
Qed.

Lemma read_directory_loop_raises (turns : nat) (r : Fat16Reader) :
  forall offset entries,
    raises_only read_error (read_directory_loop turns r offset entries).
Proof.
  induction turns as [|turns IH]; intros offset entries;
    cbn [read_directory_loop];
    (apply bind_raises_only; [apply py_index_raises | intros first]);
    (destruct (first =? 0); [apply Ret_raises_only|]).
  - intros x H. discriminate.
  - apply bind_raises_only; [apply _read_entry_raises | intros e].
    apply IH.
Qed.

Lemma _read_directory_raises_only (r : Fat16Reader) (offset : Z) :
  raises_only read_error (_read_directory r offset).
Proof. apply read_directory_loop_raises. Qed.

Lemma _check_next_in_fat_raises (r : Fat16Reader) (c : Z) :
  raises_only read_error (_check_next_in_fat r c).
Proof.
  unfold _check_next_in_fat.
  apply bind_raises_only; [apply _read_ushort_raises | intros v].
  apply Ret_raises_only.
Qed.

Lemma clusters_loop_raises (fuel : nat) (r : Fat16Reader) :
  forall acc next, raises_only read_error (clusters_loop fuel r acc next).
Proof.
  induction fuel as [|fuel IH]; intros acc next; cbn [clusters_loop];
    (destruct (fst next); [|apply Ret_raises_only]).
  - intros x H. discriminate.
  - apply bind_raises_only; [apply _check_next_in_fat_raises | intros t].
    apply IH.
Qed.

Lemma _get_clusters_list_raises (fuel : nat) (r : Fat16Reader)
    (e : DirectoryEntry.t) :
  raises_only read_error (_get_clusters_list fuel r e).
Proof.
  unfold _get_clusters_list.
  destruct (_ =? 0); [apply Ret_raises_only|].
  apply bind_raises_only; [apply _check_next_in_fat_raises | intros t].
  apply clusters_loop_raises.
Qed.

Lemma cd_extend_loop_raises (linked_list : list Z) :
  forall r, raises_only read_error (fst (cd_extend_loop linked_list r)).
Proof.
  induction linked_list as [|cluster rest IH]; intros r;
    cbn [cd_extend_loop]; [apply Ret_raises_only|].
  unfold mbind, reading, assign_current_entries.
  pose proof (_read_directory_raises_only r (cluster_start r cluster)) as H.
  destruct (_read_directory r (cluster_start r cluster)) as [es| |];
    [apply IH | raised H | intros x Hx; discriminate].
Qed.

Lemma cd_enter_raises (fuel : nat) (e : DirectoryEntry.t)
    (r : Fat16Reader) :
  raises_only read_error (fst (cd_enter fuel e r)).
Proof.
  unfold cd_enter, mbind, reading.
  pose proof (_get_clusters_list_raises fuel r e) as Hlist.
  destruct (_get_clusters_list fuel r e) as [cl| |];
    [ | raised Hlist | intros x Hx; discriminate].
  destruct (0 <? len cl).
  - apply cd_extend_loop_raises.
  - unfold mbind, assign_current_entries.
    pose proof (_read_directory_raises_only r (_root_directory_offset r))
      as Hroot.
    destruct (_read_directory r (_root_directory_offset r));
      [apply Ret_raises_only | raised Hroot | intros x Hx; discriminate].
Qed.

Lemma cd_loop_raises (fuel : nat) (name : pystr)
    (entries : list DirectoryEntry.t) :
  forall found r,
    raises_only read_error (fst (cd_loop fuel name entries found r)).
Proof.
  induction entries as [|e rest IH]; intros found r; cbn [cd_loop];
    [apply Ret_raises_only|].
  destruct (cd_matches name e); [|apply IH].
  unfold mbind. pose proof (cd_enter_raises fuel e r) as Henter.
  destruct (cd_enter fuel e r) as [[[]| |] r1];
    [apply IH | raised Henter | intros x Hx; discriminate].
Qed.

(** [cd] on a name no directory entry carries. *)
Lemma cd_no_match (fuel : nat) (name : pystr) (r : Fat16Reader) :
  existsb (cd_matches name) (_current_entries r) = false ->
  cd fuel name r =
    ((if do_print_on_commands r then Ret None
      else Raise NotADirectoryException), r).
Proof.
  intros Hno. unfold cd, mbind, reading.
  rewrite (cd_loop_no_match _ _ _ Hno).
  destruct (do_print_on_commands r); reflexivity.
Qed.

(** [cd] raises [NotADirectoryException] for such names only. *)
Lemma cd_not_a_directory (fuel : nat) (name : pystr) (r : Fat16Reader) :
  fst (cd fuel name r) = Raise NotADirectoryException ->
  existsb (cd_matches name) (_current_entries r) = false.
Proof.
  unfold cd, mbind, reading.
  pose proof (cd_loop_raises fuel name (_current_entries r) false r) as Hr.
  pose proof (cd_loop_found fuel name (_current_entries r) false r) as Hf.
  destruct (cd_loop fuel name (_current_entries r) false r)
    as [[found| |] r1]; cbn [fst] in *.
  - specialize (Hf found r1 eq_refl). cbn [orb] in Hf. subst found.
    destruct (existsb _ _); [|reflexivity].
    cbn [negb andb]. unfold mret. discriminate.
  - intros [= ->]. specialize (Hr _ eq_refl).
    destruct Hr as [|[|]]; discriminate.
  - discriminate.
Qed.

(** ** Attributes (C8) *)

Lemma mask_test (b k : Z) :
  0 <= k -> negb (Z.land b (2 ^ k) =? 0) = Z.testbit b k.
Proof.
  intros Hk. destruct (Z.testbit b k) eqn:Hbit.
  - apply negb_true_iff, Z.eqb_neq. intros Hzero.
    assert (Hland : Z.testbit (Z.land b (2 ^ k)) k = true).
    { rewrite Z.land_spec, Hbit, Z.pow2_bits_eqb, Z.eqb_refl by lia.
      reflexivity. }
    rewrite Hzero, Z.bits_0 in Hland. discriminate.
  - apply negb_false_iff, Z.eqb_eq, Z.bits_inj'. intros n Hn.
    rewrite Z.land_spec, Z.bits_0, Z.pow2_bits_eqb by lia.
    destruct (Z.eqb_spec k n) as [<-|_];
      [now rewrite Hbit | apply andb_false_r].
Qed.

Lemma entry_attributes_bits (b : Z) :
  entry_attributes_of b =
    (if Z.testbit b 0 then ["read_only"%string] else [])
    ++ (if Z.testbit b 1 then ["hidden"%string] else [])
    ++ (if Z.testbit b 2 then ["system"%string] else [])
    ++ (if Z.testbit b 3 then ["volume_id"%string] else [])
    ++ (if Z.testbit b 4 then ["directory"%string] else [])
    ++ (if Z.testbit b 5 then ["archive"%string] else []).
Proof.
  pose proof (mask_test b 0 ltac:(lia)) as H0.
  pose proof (mask_test b 1 ltac:(lia)) as H1.
  pose proof (mask_test b 2 ltac:(lia)) as H2.
  pose proof (mask_test b 3 ltac:(lia)) as H3.
  pose proof (mask_test b 4 ltac:(lia)) as H4.
  pose proof (mask_test b 5 ltac:(lia)) as H5.
  change (2 ^ 0) with 1 in H0. change (2 ^ 1) with 2 in H1.
  change (2 ^ 2) with 4 in H2. change (2 ^ 3) with 8 in H3.
  change (2 ^ 4) with 16 in H4. change (2 ^ 5) with 32 in H5.
  unfold entry_attributes_of, _attributes. cbn [filter fst snd].
  rewrite H0, H1, H2, H3, H4, H5.
  destruct (Z.testbit b 0), (Z.testbit b 1), (Z.testbit b 2),
    (Z.testbit b 3), (Z.testbit b 4), (Z.testbit b 5); reflexivity.
Qed.




(** ** Construction (C6) *)

(** C6, as the code has it: an image shorter than 24 bytes, the end of the
    last boot-sector field, makes the constructor fail with the
    [struct.error] of the first 2-byte read that comes up short, which is
    an out-of-bounds failure and not a failure of kind ImageTooSmall; from
    24 bytes on the boot sector is read. *)
Theorem C6_short_image (img : pybytes) (do_print : bool) :
  (len img < 24 ->
   init img do_print = Raise StructError
   /\ fails_with (init img do_print) OutOfBounds
   /\ ~ fails_with (init img do_print) ImageTooSmall)
  /\ (24 <= len img -> returns (_read_boot_sector do_print img)).
Proof.
  split.
  - intros Hshort.
    assert (Hinit : init img do_print = Raise StructError).
    { unfold init, _read_boot_sector.
      destruct (Z_lt_ge_dec (len img) 16) as [H16|H16].
      - now rewrite (read_ushort_short img 14) by lia.
      - destruct (read_ushort_inside img 14) as (v14 & -> & _); try lia.
        destruct (read_ushort_inside img 11) as (v11 & -> & _); try lia.
        destruct (py_index_inside img 13) as (v13 & -> & _); try lia.
        cbn [bind]. now rewrite (read_ushort_short img 22) by lia. }
    rewrite Hinit. split; [reflexivity|]. split.
    + exists StructError. split; reflexivity.
    + intros (e & [= <-] & Hkind). discriminate.
  - intros Hlong. unfold returns, _read_boot_sector.
    destruct (read_ushort_inside img 14) as (v14 & -> & _); try lia.
    destruct (read_ushort_inside img 11) as (v11 & -> & _); try lia.
    destruct (py_index_inside img 13) as (v13 & -> & _); try lia.
    destruct (read_ushort_inside img 22) as (v22 & -> & _); try lia.
    destruct (py_index_inside img 16) as (v16 & -> & _); try lia.
    destruct (read_ushort_inside img 17) as (v17 & -> & _); try lia.
    cbn [bind]. eauto.
Qed.

Lemma C6_short_image_witness :
  init [] false = Raise StructError
  /\ fails_with (init [] false) OutOfBounds
  /\ ~ fails_with (init [] false) ImageTooSmall.
Proof.
  apply (proj1 (C6_short_image [] false)). vm_compute. reflexivity.
Defined.

(** C6 fails as stated: the constructor on the empty image raises
    [struct.error], the exception of any short read, and so does not fail
    with ImageTooSmall. *)
Lemma C6_counterexample :
  init [] false = Raise StructError
  /\ ~ fails_with (init [] false) ImageTooSmall.
Proof.
  split; [vm_compute; reflexivity|].
  intros (e & Hraise & Hkind). vm_compute in Hraise.
  injection Hraise as <-. discriminate.
Qed.

(** ** Reading a directory (C7) *)

Lemma slots_to_app (r : Fat16Reader) (a b c : Z)
    (es es' : list DirectoryEntry.t) :
  slots_to r a es b -> slots_to r b es' c -> slots_to r a (es ++ es') c.
Proof.
  induction 1 as [|a first e es b Hfirst Hnz Hentry _ IH]; intros Hrest;
    [assumption|].
  cbn [app]. apply slots_to_entry with (first := first); auto.
Qed.

(** C7, as the code has it: [_read_directory] always comes to an end, and
    it returns exactly when the consecutive 32-byte slots from the offset
    decode up to a first slot that starts with 0x00, and then returns their
    entries in order, that slot and what follows left out.  A slot that
    starts with 0xE5 goes
    through the same decoder as any other: it is in the result when the
    decoder returns its entry, and when the decoder raises, as it does on
    0xE5 followed by a byte that does not continue a UTF-8 sequence, the
    whole read raises the same exception. *)
Theorem C7_read_directory (r : Fat16Reader) (offset : Z) :
  halts (_read_directory r offset)
  /\ (forall es, _read_directory r offset = Ret es <-> slots r offset es)
  /\ (forall es stop e rest,
         slots_to r offset es stop ->
         py_index (image r) stop = Ret 0xE5 ->
         _read_entry r stop = Ret e ->
         slots r (stop + 32) rest ->
         _read_directory r offset = Ret (es ++ e :: rest))
  /\ (forall es stop first x,
         slots_to r offset es stop ->
         py_index (image r) stop = Ret first -> first <> 0 ->
         _read_entry r stop = Raise x ->
         _read_directory r offset = Raise x)
  /\ (forall es stop c1,
         slots_to r offset es stop ->
         0 <= stop ->
         py_index (image r) stop = Ret 0xE5 ->
         py_index (image r) (stop + 1) = Ret c1 ->
         is_cont c1 = false ->
         _read_directory r offset = Raise UnicodeDecodeError).
Proof.
  split; [|split; [|split; [|split]]].
  - apply _read_directory_halts.
  - intros es. apply _read_directory_slots.
  - intros es stop e rest Hto Hfirst Hentry (stop' & Hrest & Hend).
    apply _read_directory_slots. exists stop'. split; [|assumption].
    apply slots_to_app with (b := stop); [assumption|].
    apply slots_to_entry with (first := 0xE5); auto. discriminate.
  - intros es stop first x. apply _read_directory_raises.
  - intros es stop c1 Hto Hstop Hfirst Hsecond Hc1.
    apply _read_directory_raises with (es := es) (stop := stop)
                                      (first := 0xE5); auto.
    + discriminate.
    + now apply _read_entry_deleted with (c1 := c1).
Qed.

Lemma C7_read_directory_witness :
  _read_directory Sample.reader_deleted 384 = Raise UnicodeDecodeError.
Proof.
  apply (proj2 (proj2 (proj2 (proj2
           (C7_read_directory Sample.reader_deleted 384)))))
    with (es := [Sample.entry_dot]) (stop := 416) (c1 := 76).
  - apply slots_to_entry with (first := 46);
      [vm_compute; reflexivity | discriminate | vm_compute; reflexivity
      | apply slots_to_here].
  - lia.
  - vm_compute. reflexivity.
  - vm_compute. reflexivity.
  - vm_compute. reflexivity.
Defined.

(** C7 fails as stated: in the directory at 384 of the sample image the
    slot at 416 starts with 0xE5 and the first slot that starts with 0x00 is
    the one at 480, yet the read returns no entries at all. *)
Lemma C7_counterexample :
  py_index (image Sample.reader_deleted) 416 = Ret 0xE5
  /\ py_index (image Sample.reader_deleted) 480 = Ret 0
  /\ ~ returns (_read_directory Sample.reader_deleted 384).
Proof.
  split; [vm_compute; reflexivity|]. split; [vm_compute; reflexivity|].
  intros (es & H). vm_compute in H. discriminate.
Qed.

(** ** The root directory (C4) *)

(** C4: an entry with start cluster 0 has the empty chain, whatever the
    fuel, so that not one FAT entry is read; entering it reads the
    directory at [_root_directory_offset] and makes it the current one, and
    [cd] on the one entry of that name returns this directory. *)
Theorem C4_root_entry (fuel : nat) (r : Fat16Reader)
    (e : DirectoryEntry.t) :
  DirectoryEntry.cluster_number e = 0 ->
  _get_clusters_list fuel r e = Ret []
  /\ cd_enter fuel e r =
       match _read_directory r (_root_directory_offset r) with
       | Ret es => (Ret tt, set_current_entries r es)
       | Raise x => (Raise x, r)
       | OutOfFuel => (OutOfFuel, r)
       end
  /\ forall name l1 l2,
       _current_entries r = l1 ++ e :: l2 ->
       cd_matches name e = true ->
       existsb (cd_matches name) l1 = false ->
       existsb (cd_matches name) l2 = false ->
       cd fuel name r =
         match _read_directory r (_root_directory_offset r) with
         | Ret es => (Ret (Some es), set_current_entries r es)
         | Raise x => (Raise x, r)
         | OutOfFuel => (OutOfFuel, r)
         end.
Proof.
  intros Hzero.
  assert (Hlist : _get_clusters_list fuel r e = Ret []).
  { unfold _get_clusters_list. now rewrite Hzero. }
  assert (Henter : cd_enter fuel e r =
                   match _read_directory r (_root_directory_offset r) with
                   | Ret es => (Ret tt, set_current_entries r es)
                   | Raise x => (Raise x, r)
                   | OutOfFuel => (OutOfFuel, r)
                   end).
  { unfold cd_enter, mbind, reading. rewrite Hlist.
    change (0 <? len (@nil Z)) with false. cbv iota.
    unfold assign_current_entries.
    destruct (_read_directory r (_root_directory_offset r)); reflexivity. }
  split; [assumption|]. split; [assumption|].
  intros name l1 l2 Hentries Hmatch H1 H2.
  unfold cd. unfold mbind at 1. unfold reading at 1. rewrite Hentries.
  unfold mbind at 1. rewrite cd_loop_app. unfold mbind at 1.
  rewrite (cd_loop_no_match _ _ _ H1).
  cbn [cd_loop]. rewrite Hmatch. unfold mbind at 1. rewrite Henter.
  destruct (_read_directory r (_root_directory_offset r)); try reflexivity.
  rewrite (cd_loop_no_match _ _ _ H2). reflexivity.
Qed.

Lemma C4_root_entry_witness :
  cd 0 (str "..") (Sample.in_test Sample.reader_ok) =
    match _read_directory (Sample.in_test Sample.reader_ok)
            (_root_directory_offset (Sample.in_test Sample.reader_ok)) with
    | Ret es =>
        (Ret (Some es), set_current_entries (Sample.in_test Sample.reader_ok) es)
    | Raise x => (Raise x, Sample.in_test Sample.reader_ok)
    | OutOfFuel => (OutOfFuel, Sample.in_test Sample.reader_ok)
    end.
Proof.
  apply (proj2 (proj2 (C4_root_entry 0 (Sample.in_test Sample.reader_ok)
                         Sample.entry_dotdot eq_refl)))
    with (l1 := [Sample.entry_dot]) (l2 := [Sample.entry_one]);
    vm_compute; reflexivity.
Defined.

(** ** Several directories of one name (C10) *)





(** ** What the commands change (C9) *)

(** C9, as the code has it: [ls] and [open_file], whatever its outcome,
    leave the reader as it was, and so does a [cd] that finds no directory
    of the name, the only [cd] that fails with NotADirectory; any [cd]
    leaves the image and the geometry as they were; and the entries change
    only in a [cd] that found a directory of the name, whether it then
    returns or not. *)
Theorem C9_frame (fuel : nat) (name : pystr) (r : Fat16Reader) :
  ls r = (Ret (_current_entries r), r)
  /\ snd (open_file fuel name r) = r
  /\ (fails_with (fst (cd fuel name r)) NotADirectory ->
      snd (cd fuel name r) = r)
  /\ (fst (cd fuel name r) = Ret None -> snd (cd fuel name r) = r)
  /\ same_disk r (snd (cd fuel name r))
  /\ (snd (cd fuel name r) <> r ->
      existsb (cd_matches name) (_current_entries r) = true).
Proof.
  split; [reflexivity|]. split; [apply open_file_frame|].
  assert (Hno : existsb (cd_matches name) (_current_entries r) = false ->
                snd (cd fuel name r) = r).
  { intros H. now rewrite (cd_no_match _ _ _ H). }
  split; [|split; [|split]].
  - intros (x & Hraise & Hkind). apply Hno.
    apply cd_not_a_directory with (fuel := fuel).
    rewrite Hraise. destruct x; try discriminate. reflexivity.
  - intros Hnone. apply Hno.
    destruct (existsb (cd_matches name) (_current_entries r)) eqn:Hsome;
      [exfalso|reflexivity].
    unfold cd, mbind, reading, mret, raise in Hnone.
    pose proof (cd_loop_found fuel name (_current_entries r) false r) as Hf.
    destruct (cd_loop fuel name (_current_entries r) false r)
      as [[found| |] r1]; try discriminate.
    specialize (Hf found r1 eq_refl). rewrite Hsome in Hf. subst found.
    discriminate.
  - unfold cd, mbind, reading.
    pose proof (cd_loop_same_disk fuel name (_current_entries r) false r)
      as Hdisk.
    destruct (cd_loop fuel name (_current_entries r) false r)
      as [[found| |] r1]; cbn [snd] in Hdisk; try exact Hdisk.
    unfold mret, raise.
    destruct (negb found && do_print_on_commands r1); [exact Hdisk|].
    destruct (negb found && negb (do_print_on_commands r1)); exact Hdisk.
  - intros Hchanged.
    destruct (existsb (cd_matches name) (_current_entries r)) eqn:Hsome;
      [reflexivity|].
    now destruct Hchanged; apply Hno.
Qed.

Lemma C9_frame_witness :
  snd (cd 0 (str EmptyString) Sample.reader_ok) = Sample.reader_ok.
Proof.
  apply (proj1 (proj2 (proj2 (C9_frame 0 (str EmptyString) Sample.reader_ok)))).
  exists NotADirectoryException. split; vm_compute; reflexivity.
Defined.

(** C9 fails as stated: in the sample image whose directory TEST holds a
    deleted file, [cd("TEST")] raises and yet leaves the reader without
    its entries. *)
Lemma C9_counterexample :
  fst (cd 4 (str "TEST") Sample.reader_deleted) = Raise UnicodeDecodeError
  /\ _current_entries (snd (cd 4 (str "TEST") Sample.reader_deleted)) = []
  /\ _current_entries Sample.reader_deleted <> [].
Proof.
  repeat split; try (vm_compute; reflexivity).
  vm_compute. discriminate.
Qed.

(** ** The chain walk (C2, C3) *)

(** C2 at a failing input: in the sample image that ends ONE.TXT with the
    end-of-file marker 0xFFF9, the chain from cluster 5 is the one cluster
    5, but the walk takes 0xFFF9 for the next cluster and reads the FAT
    entry of cluster 0xFFF9, outside this image; it never returns [5]. *)
Theorem C2_eof_marker_fff9 :
  fat_chain Sample.reader_fff9 5 [5] 0xFFF9
  /\ is_eof_marker 0xFFF9 = true
  /\ _get_clusters_list 0 Sample.reader_fff9 Sample.entry_one = OutOfFuel
  /\ forall fuel,
       _get_clusters_list (S fuel) Sample.reader_fff9 Sample.entry_one =
         Raise StructError.
Proof.
  assert (H5 : _check_next_in_fat Sample.reader_fff9 5 = Ret (true, 0xFFF9))
    by (vm_compute; reflexivity).
  assert (Hout : _check_next_in_fat Sample.reader_fff9 0xFFF9 =
                 Raise StructError)
    by (vm_compute; reflexivity).
  split; [apply fat_chain_last; vm_compute; reflexivity|].
  split; [reflexivity|].
  split; [vm_compute; reflexivity|].
  intros fuel. unfold _get_clusters_list.
  change (DirectoryEntry.cluster_number Sample.entry_one) with 5.
  change (5 =? 0) with false. cbv iota.
  rewrite H5. cbn [bind clusters_loop fst snd]. rewrite Hout. reflexivity.
Qed.




(** ** Opening a file (C1, C5) *)

Lemma spec_file_content_done (r : Fat16Reader) (chain : list Z)
    (remaining : Z) :
  remaining <= 0 -> spec_file_content r chain remaining = Some [].
Proof.
  intros H. apply Z.leb_le in H. destruct chain; simpl; now rewrite H.
Qed.

Lemma spec_file_content_truncated (r : Fat16Reader) (chain : list Z) :
  0 <= _cluster_size r * _sector_size r ->
  forall remaining,
    len chain * (_cluster_size r * _sector_size r) < remaining ->
    spec_file_content r chain remaining = None.
Proof.
  intros Hcap.
  induction chain as [|c chain IH]; intros remaining Hshort;
    cbn [spec_file_content].
  - unfold len in Hshort. simpl in Hshort.
    apply Z.leb_gt in Hshort. now rewrite Hshort.
  - assert (Hlen : len (c :: chain) = 1 + len chain)
      by (unfold len; simpl List.length; lia).
    rewrite Hlen in Hshort.
    assert (0 <= len chain * (_cluster_size r * _sector_size r))
      by (apply Z.mul_nonneg_nonneg; [unfold len; lia | assumption]).
    assert (Hpos : (remaining <=? 0) = false) by (apply Z.leb_gt; lia).
    rewrite Hpos. cbv zeta.
    rewrite Z.min_r by lia. rewrite IH by lia. reflexivity.
Qed.

(** C1, as the code has it: for a file entry, the one entry of its name,
    whose chain from a start cluster other than 0 ends at a value of the
    table, a declared size that fits the first cluster, inside the image,
    gives content of exactly that size, the leading bytes of the cluster,
    which is what the specification assembles; and when the whole chain is
    too short for the declared size, where the specification fails with
    TruncatedFile, [open_file] returns a file all the same, with fewer
    bytes than declared. *)
Theorem C1_open_file_content (fuel : nat) (name : pystr) (r : Fat16Reader)
    (l1 l2 : list DirectoryEntry.t) (e : DirectoryEntry.t)
    (cs : list Z) (v : Z) :
  _current_entries r = l1 ++ e :: l2 ->
  existsb (name_is name) l1 = false ->
  existsb (name_is name) l2 = false ->
  name_is name e = true ->
  is_file_entry e = true ->
  DirectoryEntry.cluster_number e <> 0 ->
  fat_chain r (DirectoryEntry.cluster_number e) cs v ->
  is_notable v = true ->
  (List.length cs <= S fuel)%nat ->
  (0 <= DirectoryEntry.filesize e <= _cluster_size r * _sector_size r ->
   0 <= cluster_start r (DirectoryEntry.cluster_number e) ->
   cluster_start r (DirectoryEntry.cluster_number e)
     + DirectoryEntry.filesize e <= len (image r) ->
   exists f,
     open_file fuel name r = (Ret (Some f), r)
     /\ FileInfo.filename f = DirectoryEntry.filename e
     /\ FileInfo.extension f = DirectoryEntry.extension e
     /\ FileInfo.filesize f = DirectoryEntry.filesize e
     /\ len (FileInfo.bytes f) = DirectoryEntry.filesize e
     /\ FileInfo.bytes f =
          py_slice (image r)
            (cluster_start r (DirectoryEntry.cluster_number e))
            (cluster_start r (DirectoryEntry.cluster_number e)
             + DirectoryEntry.filesize e)
     /\ spec_file_content r cs (DirectoryEntry.filesize e) =
          Some (FileInfo.bytes f))
  /\ (0 <= _cluster_size r * _sector_size r ->
      len cs * (_cluster_size r * _sector_size r)
        < DirectoryEntry.filesize e ->
      spec_file_content r cs (DirectoryEntry.filesize e) = None
      /\ exists f,
           open_file fuel name r = (Ret (Some f), r)
           /\ len (FileInfo.bytes f) < DirectoryEntry.filesize e).
Proof.
  intros Hentries H1 H2 Hname Hfile Hstart Hchain Hv Hfuel.
  pose proof (open_file_single fuel name r l1 l2 e Hentries H1 H2 Hname
                Hfile) as Hopen.
  rewrite (chain_walk_returns fuel r e cs v Hstart Hchain Hv Hfuel) in Hopen.
  destruct (fat_chain_head _ _ _ _ Hchain) as (rest & ->).
  cbn [bind] in Hopen. rewrite _compose_file_first in Hopen.
  cbn [bind] in Hopen.
  split.
  - intros Hsize Hlow Hhigh. eexists. split; [exact Hopen|].
    cbn [FileInfo.filename FileInfo.extension FileInfo.filesize
           FileInfo.bytes].
    rewrite Z.min_l by lia.
    split; [reflexivity|]. split; [reflexivity|]. split; [reflexivity|].
    split; [rewrite py_slice_inside; lia|]. split; [reflexivity|].
    cbn [spec_file_content].
    destruct (DirectoryEntry.filesize e <=? 0) eqn:Hzero; zbool.
    + assert (Hz : DirectoryEntry.filesize e = 0) by lia. rewrite Hz.
      rewrite py_slice_nonneg by lia.
      replace (Z.to_nat (_ + 0 - _)) with 0%nat by lia. reflexivity.
    + cbv zeta. rewrite Z.min_l by lia.
      rewrite spec_file_content_done by lia. now rewrite app_nil_r.
  - intros Hcap Hshort.
    split; [now apply spec_file_content_truncated|].
    eexists. split; [exact Hopen|]. cbn [FileInfo.bytes].
    assert (Hlen : len (DirectoryEntry.cluster_number e :: rest)
                   = 1 + len rest)
      by (unfold len; simpl List.length; lia).
    rewrite Hlen in Hshort.
    assert (0 <= len rest * (_cluster_size r * _sector_size r))
      by (apply Z.mul_nonneg_nonneg; [unfold len; lia | assumption]).
    rewrite Z.min_r by lia.
    match goal with
    | |- len (py_slice ?l ?a ?b) < _ =>
        pose proof (py_slice_length_le l a b)
    end.
    lia.
Qed.

Lemma C1_open_file_content_witness :
  exists f,
    open_file 0 (str "ONE") (Sample.in_test Sample.reader_ok) =
      (Ret (Some f), Sample.in_test Sample.reader_ok)
    /\ FileInfo.filename f = DirectoryEntry.filename Sample.entry_one
    /\ FileInfo.extension f = DirectoryEntry.extension Sample.entry_one
    /\ FileInfo.filesize f = DirectoryEntry.filesize Sample.entry_one
    /\ len (FileInfo.bytes f) = DirectoryEntry.filesize Sample.entry_one
    /\ FileInfo.bytes f =
         py_slice (image (Sample.in_test Sample.reader_ok))
           (cluster_start (Sample.in_test Sample.reader_ok)
              (DirectoryEntry.cluster_number Sample.entry_one))
           (cluster_start (Sample.in_test Sample.reader_ok)
              (DirectoryEntry.cluster_number Sample.entry_one)
            + DirectoryEntry.filesize Sample.entry_one)
    /\ spec_file_content (Sample.in_test Sample.reader_ok) [5]
         (DirectoryEntry.filesize Sample.entry_one) =
         Some (FileInfo.bytes f).
Proof.
  refine (proj1 (C1_open_file_content 0 (str "ONE")
                   (Sample.in_test Sample.reader_ok)
                   [Sample.entry_dot; Sample.entry_dotdot] []
                   Sample.entry_one [5] 0xFFFF _ _ _ _ _ _ _ _ _) _ _ _);
    try (vm_compute; reflexivity).
  - vm_compute. discriminate.
  - apply fat_chain_last. vm_compute. reflexivity.
  - vm_compute. split; discriminate.
  - vm_compute. discriminate.
  - vm_compute. discriminate.
Defined.

(** C1 fails as stated: HELLO.TXT of the sample image declares 200 bytes
    and has the chain 3, 4 of two clusters of 128 bytes, which covers them,
    yet [open_file] returns a file whose content has another length; and
    in the image that cuts the chain to cluster 3, where the specification
    fails with TruncatedFile, [open_file] still returns. *)
Lemma C1_counterexample :
  fat_chain Sample.reader_ok 3 [3; 4] 0xFFF8
  /\ (exists content,
        spec_file_content Sample.reader_ok [3; 4] 200 = Some content
        /\ len content = 200)
  /\ ~ (exists f,
          fst (open_file 1 (str "HELLO") Sample.reader_ok) = Ret (Some f)
          /\ len (FileInfo.bytes f)
             = DirectoryEntry.filesize Sample.entry_hello)
  /\ spec_file_content Sample.reader_short [3] 200 = None
  /\ returns (fst (open_file 1 (str "HELLO") Sample.reader_short)).
Proof.
  split.
  { apply fat_chain_link with (c' := 4);
      [vm_compute; reflexivity | reflexivity | reflexivity|].
    apply fat_chain_last. vm_compute. reflexivity. }
  split.
  { eexists. split; vm_compute; reflexivity. }
  split.
  { intros (f & Hopen & Hlen). vm_compute in Hopen.
    injection Hopen as <-. vm_compute in Hlen. discriminate. }
  split; [vm_compute; reflexivity|].
  eexists. vm_compute. reflexivity.
Qed.

(** [open_file] on a name no entry carries. *)
Lemma open_file_no_name (fuel : nat) (name : pystr) (r : Fat16Reader) :
  existsb (name_is name) (_current_entries r) = false ->
  open_file fuel name r =
    ((if do_print_on_commands r then Ret None
      else Raise NotAFileException), r).
Proof.
  intros Hno. unfold open_file, mbind, reading.
  rewrite (open_file_loop_no_match _ _ _ Hno). cbn [fst snd negb andb].
  destruct (do_print_on_commands r); reflexivity.
Qed.

(** A file entry with start cluster 0, as an empty file has it, gives
    [_compose_file] an empty list of pieces. *)
Lemma compose_empty_file (fuel : nat) (r : Fat16Reader)
    (e : DirectoryEntry.t) :
  DirectoryEntry.cluster_number e = 0 ->
  (clusters_list <- _get_clusters_list fuel r e ;;
   _compose_file r clusters_list e) = Raise IndexError.
Proof.
  intros Hzero. unfold _get_clusters_list. now rewrite Hzero.
Qed.

(** C5 at a failing input: the root of the sample image has the directory
    TEST and no file of that name; [open_file("TEST")] sets [found] at the
    directory entry, binds no [file], and ends in the [UnboundLocalError]
    of [return file], not in NotAFile. *)
Theorem C5_open_file_directory_name :
  existsb (fun e => name_is (str "TEST") e && is_file_entry e)
    (_current_entries Sample.reader_ok) = false
  /\ fst (open_file 0 (str "TEST") Sample.reader_ok) = Raise UnboundLocalError
  /\ ~ fails_with (fst (open_file 0 (str "TEST") Sample.reader_ok)) NotAFile.
Proof.
  split; [vm_compute; reflexivity|].
  split; [vm_compute; reflexivity|].
  intros (x & Hraise & Hkind). vm_compute in Hraise.
  injection Hraise as <-. discriminate.
Qed.

(** * Further properties *)

(** ** Little-endian reads *)

Lemma firstn_skipn_cons {A} (l : list A) (n k : nat) (x : A) :
  nth_error l n = Some x ->
  firstn (S k) (skipn n l) = x :: firstn k (skipn (S n) l).
Proof.
  intros H. now rewrite (nth_error_skipn l n x H).
Qed.

Lemma nth_error_inside {A} (l : list A) (n : nat) :
  (n < List.length l)%nat -> exists x, nth_error l n = Some x.
Proof.
  intros H. destruct (nth_error l n) as [x|] eqn:Hn; [now exists x|].
  apply nth_error_None in Hn. lia.
Qed.

Lemma py_index_nth (img : pybytes) (i : Z) (b : byte) :
  0 <= i -> nth_error img (Z.to_nat i) = Some b ->
  py_index img i = Ret (byte_val b).
Proof.
  intros Hi Hn. rewrite py_index_nonneg by lia. now rewrite Hn.
Qed.

Lemma read_ushort_at_bytes (img : pybytes) (offset v : Z) :
  0 <= offset ->
  read_ushort_at img offset = Ret v ->
  ushort_of_bytes img offset = Ret v
  /\ 0 <= v < 65536 /\ offset + 2 <= len img.
Proof.
  intros Hoff Hread.
  assert (Hlen : offset + 2 <= len img).
  { destruct (Z_le_gt_dec (offset + 2) (len img)); [assumption|].
    rewrite read_ushort_short in Hread by lia. discriminate. }
  unfold len in Hlen.
  destruct (nth_error_inside img (Z.to_nat offset)) as (b0 & H0); [lia|].
  destruct (nth_error_inside img (S (Z.to_nat offset))) as (b1 & H1);
    [lia|].
  unfold read_ushort_at in Hread. rewrite py_slice_nonneg in Hread by lia.
  replace (Z.to_nat (offset + 2 - offset)) with 2%nat in Hread by lia.
  rewrite (firstn_skipn_cons _ _ _ _ H0) in Hread.
  rewrite (firstn_skipn_cons _ _ _ _ H1) in Hread.
  rewrite firstn_O in Hread. unfold unpack_H in Hread.
  assert (Hv : v = byte_val b0 + 256 * byte_val b1) by congruence.
  subst v. clear Hread.
  unfold ushort_of_bytes.
  rewrite (py_index_nth img offset b0) by (assumption || lia).
  rewrite (py_index_nth img (offset + 1) b1)
    by (try lia; now replace (Z.to_nat (offset + 1))
                       with (S (Z.to_nat offset)) by lia).
  unfold bind. split; [reflexivity|]. unfold len.
  pose proof (byte_val_range b0). pose proof (byte_val_range b1). lia.
Qed.

Lemma unpack_I_bytes (img : pybytes) (offset v : Z) :
  0 <= offset ->
  unpack_I (py_slice img offset (offset + 4)) = Ret v ->
  uint_of_bytes img offset = Ret v
  /\ 0 <= v < 4294967296 /\ offset + 4 <= len img.
Proof.
  intros Hoff Hread. rewrite py_slice_nonneg in Hread by lia.
  replace (Z.to_nat (offset + 4 - offset)) with 4%nat in Hread by lia.
  assert (Hlen : (Z.to_nat offset + 4 <= List.length img)%nat).
  { destruct (le_gt_dec (Z.to_nat offset + 4) (List.length img));
      [assumption|exfalso].
    assert (Hs : (List.length (firstn 4 (skipn (Z.to_nat offset) img))
                  < 4)%nat)
      by (rewrite length_firstn, length_skipn; lia).
    destruct (firstn 4 _) as [|c0 [|c1 [|c2 [|c3 [|c4 s]]]]];
      simpl in Hs; try discriminate; lia. }
  destruct (nth_error_inside img (Z.to_nat offset)) as (b0 & H0); [lia|].
  destruct (nth_error_inside img (S (Z.to_nat offset))) as (b1 & H1);
    [lia|].
  destruct (nth_error_inside img (S (S (Z.to_nat offset))))
    as (b2 & H2); [lia|].
  destruct (nth_error_inside img (S (S (S (Z.to_nat offset)))))
    as (b3 & H3); [lia|].
  rewrite (firstn_skipn_cons _ _ _ _ H0) in Hread.
  rewrite (firstn_skipn_cons _ _ _ _ H1) in Hread.
  rewrite (firstn_skipn_cons _ _ _ _ H2) in Hread.
  rewrite (firstn_skipn_cons _ _ _ _ H3) in Hread.
  rewrite firstn_O in Hread. unfold unpack_I in Hread.
  assert (Hv : v = byte_val b0 + 256 * byte_val b1 + 65536 * byte_val b2
               + 16777216 * byte_val b3) by congruence.
  subst v. clear Hread.
  unfold uint_of_bytes.
  rewrite (py_index_nth img offset b0) by (assumption || lia).
  rewrite (py_index_nth img (offset + 1) b1)
    by (try lia; now replace (Z.to_nat (offset + 1))
                       with (S (Z.to_nat offset)) by lia).
  rewrite (py_index_nth img (offset + 2) b2)
    by (try lia; now replace (Z.to_nat (offset + 2))
                       with (S (S (Z.to_nat offset))) by lia).
  rewrite (py_index_nth img (offset + 3) b3)
    by (try lia; now replace (Z.to_nat (offset + 3))
                       with (S (S (S (Z.to_nat offset)))) by lia).
  unfold bind. split; [reflexivity|]. unfold len.
  pose proof (byte_val_range b0). pose proof (byte_val_range b1).
  pose proof (byte_val_range b2). pose proof (byte_val_range b3). lia.
Qed.

Lemma read_ushort_before_start (img : pybytes) (offset : Z) :
  -2 <= offset < 0 -> read_ushort_at img offset = Raise StructError.
Proof.
  intros Hoff. unfold read_ushort_at.
  assert (Hs : (List.length (py_slice img offset (offset + 2)) < 2)%nat).
  { unfold py_slice, adjust_index, len.
    rewrite length_firstn, length_skipn.
    destruct (offset <? 0) eqn:H1; destruct (offset + 2 <? 0) eqn:H2;
      zbool; lia. }
  destruct (py_slice img offset (offset + 2)) as [|b0 [|b1 [|b2 s]]];
    simpl in Hs; try reflexivity; lia.
Qed.

(** X1: [_read_ushort] at an offset from 0 on gives the little-endian
    value of the two bytes there, below 65536, when both lie in the image,
    and raises [struct.error] when they do not; at the offsets -2 and -1 it
    raises [struct.error] whatever the image holds, the slice being short;
    it raises nothing else. *)
Theorem X1_read_ushort (r : Fat16Reader) (offset : Z) :
  (0 <= offset -> offset + 2 <= len (image r) ->
   exists v, _read_ushort r offset = Ret v
             /\ ushort_of_bytes (image r) offset = Ret v
             /\ 0 <= v < 65536)
  /\ (0 <= offset -> len (image r) < offset + 2 ->
      _read_ushort r offset = Raise StructError)
  /\ (-2 <= offset < 0 -> _read_ushort r offset = Raise StructError)
  /\ (forall x, _read_ushort r offset = Raise x -> x = StructError).
Proof.
  split; [|split; [|split]].
  - intros Hoff Hlen.
    destruct (read_ushort_inside (image r) offset Hoff Hlen)
      as (v & Hv & _).
    exists v. split; [exact Hv|].
    destruct (read_ushort_at_bytes _ _ _ Hoff Hv) as (Hb & Hr & _). auto.
  - intros Hoff Hlen. now apply read_ushort_short.
  - apply read_ushort_before_start.
  - unfold _read_ushort, read_ushort_at. intros x.
    destruct (py_slice _ _ _) as [|b0 [|b1 [|b2 s]]]; simpl;
      intros H; try discriminate; now injection H as <-.
Qed.

Lemma X1_read_ushort_witness :
  exists v, _read_ushort Sample.reader_ok 11 = Ret v
            /\ ushort_of_bytes (image Sample.reader_ok) 11 = Ret v
            /\ 0 <= v < 65536.
Proof.
  apply (proj1 (X1_read_ushort Sample.reader_ok 11));
    vm_compute; discriminate.
Defined.

(** ** The constructor *)

Lemma slots_to_set (r : Fat16Reader) (es0 : list DirectoryEntry.t)
    (offset : Z) (es : list DirectoryEntry.t) (stop : Z) :
  slots_to r offset es stop ->
  slots_to (set_current_entries r es0) offset es stop.
Proof.
  induction 1 as [|offset first e es stop Hfirst Hnz Hentry _ IH];
    [constructor|].
  now apply slots_to_entry with (first := first).
Qed.

Lemma slots_set (r : Fat16Reader) (es0 : list DirectoryEntry.t)
    (offset : Z) (es : list DirectoryEntry.t) :
  slots r offset es -> slots (set_current_entries r es0) offset es.
Proof.
  intros (stop & Hto & Hend). exists stop.
  split; [now apply slots_to_set | exact Hend].
Qed.

(** X2: a reader that the constructor returns keeps the image and the
    print flag, has an image of 24 bytes or more, holds the boot-sector
    fields as the little-endian values at their offsets, derives the FAT,
    root-directory and cluster offsets from them by the formulas of
    [_read_boot_sector], in ascending order from 0 on, starts at the root,
    and lists the slots of the root directory. *)
Theorem X2_init_geometry (img : pybytes) (do_print : bool)
    (r : Fat16Reader) :
  init img do_print = Ret r ->
  image r = img /\ do_print_on_commands r = do_print /\ volume_id r = []
  /\ 24 <= len img
  /\ ushort_of_bytes img 14 = Ret (_reserved_sectors r)
  /\ ushort_of_bytes img 11 = Ret (_sector_size r)
  /\ py_index img 13 = Ret (_cluster_size r)
  /\ ushort_of_bytes img 22 = Ret (_fat_size r)
  /\ py_index img 16 = Ret (_fat_copies r)
  /\ ushort_of_bytes img 17 = Ret (_root_directory_entries r)
  /\ _fat_offset r = _reserved_sectors r * _sector_size r
  /\ _root_directory_offset r =
       _fat_offset r + _fat_size r * _fat_copies r * _sector_size r
  /\ _root_directory_size r = _root_directory_entries r * 32
  /\ _clusters_offset r = _root_directory_offset r + _root_directory_size r
  /\ _current_root r = _root_directory_offset r
  /\ 0 <= _fat_offset r <= _root_directory_offset r
  /\ _root_directory_offset r <= _clusters_offset r
  /\ slots r (_root_directory_offset r) (_current_entries r).
Proof.
  unfold init, _read_boot_sector. intros H.
  apply bind_Ret_inv in H as (r0 & Hboot & H).
  apply bind_Ret_inv in Hboot as (reserved & H14 & Hboot).
  apply bind_Ret_inv in Hboot as (sector & H11 & Hboot).
  apply bind_Ret_inv in Hboot as (cluster & H13 & Hboot).
  apply bind_Ret_inv in Hboot as (fat & H22 & Hboot).
  apply bind_Ret_inv in Hboot as (copies & H16 & Hboot).
  apply bind_Ret_inv in Hboot as (entries & H17 & Hboot).
  injection Hboot as <-.
  apply bind_Ret_inv in H as (es & Hroot & H). injection H as <-.
  cbn [_current_root] in Hroot.
  apply read_ushort_at_bytes in H14 as (B14 & R14 & _); [|lia].
  apply read_ushort_at_bytes in H11 as (B11 & R11 & _); [|lia].
  apply read_ushort_at_bytes in H22 as (B22 & R22 & L22); [|lia].
  apply read_ushort_at_bytes in H17 as (B17 & R17 & _); [|lia].
  assert (R16 : 0 <= copies < 256).
  { destruct (py_index_inside img 16) as (v & Hv & Hr); [lia|].
    rewrite Hv in H16. now injection H16 as <-. }
  cbn [set_current_entries image do_print_on_commands volume_id
         _reserved_sectors _sector_size _cluster_size _fat_offset _fat_size
         _fat_copies _root_directory_offset _root_directory_entries
         _root_directory_size _clusters_offset _current_root
         _current_entries].
  unfold _entry_size.
  assert (0 <= reserved * sector) by (apply Z.mul_nonneg_nonneg; lia).
  assert (0 <= fat * copies * sector)
    by (repeat apply Z.mul_nonneg_nonneg; lia).
  repeat (split; [first [reflexivity | assumption | lia]|]).
  apply slots_set. now apply _read_directory_slots.
Qed.

Lemma X2_init_geometry_witness :
  _clusters_offset Sample.reader_ok =
    _root_directory_offset Sample.reader_ok
    + _root_directory_size Sample.reader_ok
  /\ _current_root Sample.reader_ok = _root_directory_offset Sample.reader_ok
  /\ 0 <= _fat_offset Sample.reader_ok
          <= _root_directory_offset Sample.reader_ok
  /\ _root_directory_offset Sample.reader_ok
       <= _clusters_offset Sample.reader_ok
  /\ slots Sample.reader_ok (_root_directory_offset Sample.reader_ok)
       (_current_entries Sample.reader_ok).
Proof.
  apply (X2_init_geometry Sample.image_ok false Sample.reader_ok).
  vm_compute. reflexivity.
Defined.

(** ** The fields of an entry *)

(** X3: an entry that [_read_entry] returns for an offset from 0 on comes
    from 32 bytes inside the image; its start cluster is the little-endian
    value of the bytes 26, 27 of the slot and its size that of the bytes 28
    to 31, below 2^16 and 2^32; and its attribute [creation_time] holds the
    value of the bytes 16, 17, the date field, while [creation_date] holds
    that of the bytes 14, 15, the time field. *)
Theorem X3_read_entry_layout (r : Fat16Reader) (offset : Z)
    (e : DirectoryEntry.t) :
  0 <= offset ->
  _read_entry r offset = Ret e ->
  offset + 32 <= len (image r)
  /\ ushort_of_bytes (image r) (offset + 26)
     = Ret (DirectoryEntry.cluster_number e)
  /\ uint_of_bytes (image r) (offset + 28) = Ret (DirectoryEntry.filesize e)
  /\ ushort_of_bytes (image r) (offset + 16)
     = Ret (DirectoryEntry.creation_time e)
  /\ ushort_of_bytes (image r) (offset + 14)
     = Ret (DirectoryEntry.creation_date e)
  /\ 0 <= DirectoryEntry.cluster_number e < 65536
  /\ 0 <= DirectoryEntry.filesize e < 4294967296
  /\ 0 <= DirectoryEntry.creation_time e < 65536
  /\ 0 <= DirectoryEntry.creation_date e < 65536.
Proof.
  intros Hoff H. unfold _read_entry in H.
  apply bind_Ret_inv in H as (name & _ & H).
  apply bind_Ret_inv in H as (ext & _ & H).
  apply bind_Ret_inv in H as (b & _ & H).
  apply bind_Ret_inv in H as (t & Ht & H).
  apply bind_Ret_inv in H as (d & Hd & H).
  apply bind_Ret_inv in H as (c & Hc & H).
  apply bind_Ret_inv in H as (s & Hs & H).
  assert (He : e = DirectoryEntry.mk (strip name) (strip ext)
                     (entry_attributes_of b) d t c s) by congruence.
  subst e. clear H.
  apply read_ushort_at_bytes in Ht as (Bt & Rt & _); [|lia].
  apply read_ushort_at_bytes in Hd as (Bd & Rd & _); [|lia].
  apply read_ushort_at_bytes in Hc as (Bc & Rc & _); [|lia].
  replace (offset + 32) with (offset + 28 + 4) in Hs by lia.
  apply unpack_I_bytes in Hs as (Bs & Rs & Ls); [|lia].
  cbn [DirectoryEntry.cluster_number DirectoryEntry.filesize
         DirectoryEntry.creation_time DirectoryEntry.creation_date].
  repeat (split; [first [assumption | lia]|]). lia.
Qed.

Lemma X3_read_entry_layout_witness :
  ushort_of_bytes (image Sample.reader_ok) (288 + 16)
    = Ret (DirectoryEntry.creation_time Sample.entry_test)
  /\ ushort_of_bytes (image Sample.reader_ok) (288 + 14)
     = Ret (DirectoryEntry.creation_date Sample.entry_test)
  /\ 0 <= DirectoryEntry.cluster_number Sample.entry_test < 65536
  /\ 0 <= DirectoryEntry.filesize Sample.entry_test < 4294967296
  /\ 0 <= DirectoryEntry.creation_time Sample.entry_test < 65536
  /\ 0 <= DirectoryEntry.creation_date Sample.entry_test < 65536.
Proof.
  apply (X3_read_entry_layout Sample.reader_ok 288 Sample.entry_test).
  - vm_compute. discriminate.
  - vm_compute. reflexivity.
Defined.

(** ** Names *)

Lemma lstrip_head (s : pystr) (c : Z) (rest : pystr) :
  lstrip s = c :: rest -> is_space c = false.
Proof.
  induction s as [|x s IH]; simpl; [discriminate|].
  destruct (is_space x) eqn:Hx; [assumption|].
  intros H. congruence.
Qed.

Lemma lstrip_suffix (s : pystr) : exists p, s = p ++ lstrip s.
Proof.
  induction s as [|x s (p & IH)]; simpl; [now exists []|].
  destruct (is_space x).
  - exists (x :: p). simpl. now rewrite <- IH.
  - now exists [].
Qed.

Lemma lstrip_length (s : pystr) :
  (List.length (lstrip s) <= List.length s)%nat.
Proof.
  destruct (lstrip_suffix s) as (p & Hp).
  rewrite Hp at 2. rewrite length_app. lia.
Qed.

Lemma strip_length (s : pystr) :
  (List.length (strip s) <= List.length s)%nat.
Proof.
  unfold strip. rewrite length_rev.
  pose proof (lstrip_length (rev (lstrip s))) as H1.
  rewrite length_rev in H1. pose proof (lstrip_length s). lia.
Qed.

Lemma strip_trimmed (s : pystr) : trimmed (strip s).
Proof.
  unfold trimmed, strip. split.
  - intros c rest H.
    destruct (lstrip_suffix (rev (lstrip s))) as (p & Hp).
    apply (f_equal (@rev Z)) in Hp.
    rewrite rev_involutive, rev_app_distr, H in Hp.
    simpl in Hp. now apply lstrip_head in Hp.
  - intros front c H. apply (f_equal (@rev Z)) in H.
    rewrite rev_involutive, rev_app_distr in H. simpl in H.
    now apply lstrip_head in H.
Qed.

Lemma utf8_decode_length (s : pybytes) (d : pystr) :
  utf8_decode s = Ret d -> (List.length d <= List.length s)%nat.
Proof.
  assert (H : forall n s d, (List.length s <= n)%nat ->
                            utf8_decode s = Ret d ->
                            (List.length d <= List.length s)%nat).
  { clear s d. induction n as [|n IH]; intros s d Hlen.
    - destruct s; [|simpl in Hlen; lia]. now intros [= <-].
    - destruct s as [|b0 s1]; [now intros [= <-]|].
      simpl in Hlen. cbn [utf8_decode].
      assert (Hrest : forall t x k,
                 (List.length t <= n)%nat ->
                 (List.length t + 1 <= k)%nat ->
                 (rest <- utf8_decode t ;; Ret (x :: rest)) = Ret d ->
                 (List.length d <= k)%nat).
      { intros t x k Ht Hk Hd.
        apply bind_Ret_inv in Hd as (rest & Hrest & Hd).
        apply IH in Hrest; [|assumption].
        assert (d = x :: rest) by congruence. subst d. simpl. lia. }
      cbv zeta.
      destruct (byte_val b0 <? 128);
        [intros Hd; eapply Hrest; eauto; simpl; lia|].
      destruct (in_range 194 223 (byte_val b0)).
      { destruct s1 as [|b1 s2]; [discriminate|].
        destruct (is_cont (byte_val b1)); [|discriminate].
        intros Hd. eapply Hrest; eauto; simpl in *; lia. }
      destruct (in_range 224 239 (byte_val b0)).
      { destruct s1 as [|b1 [|b2 s3]]; try discriminate.
        destruct (_ && _); [|discriminate].
        intros Hd. eapply Hrest; eauto; simpl in *; lia. }
      destruct (in_range 240 244 (byte_val b0)); [|discriminate].
      destruct s1 as [|b1 [|b2 [|b3 s4]]]; try discriminate.
      destruct (_ && _); [|discriminate].
      intros Hd. eapply Hrest; eauto; simpl in *; lia. }
  now apply (H (List.length s)).
Qed.

Lemma utf8_decode_ascii (s : pybytes) :
  Forall (fun b => byte_val b < 128) s ->
  utf8_decode s = Ret (map byte_val s).
Proof.
  induction 1 as [|b s Hb _ IH]; [reflexivity|].
  cbn [utf8_decode map]. cbv zeta.
  apply Z.ltb_lt in Hb. rewrite Hb, IH. reflexivity.
Qed.

Lemma py_slice_length_nat {A} (l : list A) (a : Z) (n : nat) :
  (List.length (py_slice l a (a + Z.of_nat n)) <= n)%nat.
Proof.
  pose proof (py_slice_length_le l a (a + Z.of_nat n)) as H.
  unfold len in H. lia.
Qed.

(** X4: the name of an entry that [_read_entry] returns is the UTF-8
    decoding of the first 8 bytes of the slot with the whitespace at both
    ends taken off, and its extension that of the next 3 bytes: neither
    starts or ends with a whitespace character, the name has 8 characters
    at most and the extension 3, and a field of bytes below 0x80 gives the
    characters of these bytes. *)
Theorem X4_entry_names (r : Fat16Reader) (offset : Z)
    (e : DirectoryEntry.t) :
  _read_entry r offset = Ret e ->
  (exists decoded,
      utf8_decode (py_slice (image r) offset (offset + 8)) = Ret decoded
      /\ DirectoryEntry.filename e = strip decoded)
  /\ (exists decoded,
         utf8_decode (py_slice (image r) (offset + 8) (offset + 11))
         = Ret decoded
         /\ DirectoryEntry.extension e = strip decoded)
  /\ trimmed (DirectoryEntry.filename e)
  /\ trimmed (DirectoryEntry.extension e)
  /\ (List.length (DirectoryEntry.filename e) <= 8)%nat
  /\ (List.length (DirectoryEntry.extension e) <= 3)%nat
  /\ (Forall (fun b => byte_val b < 128)
        (py_slice (image r) offset (offset + 8)) ->
      DirectoryEntry.filename e =
        strip (map byte_val (py_slice (image r) offset (offset + 8)))).
Proof.
  intros H. unfold _read_entry in H.
  apply bind_Ret_inv in H as (name & Hname & H).
  apply bind_Ret_inv in H as (ext & Hext & H).
  apply bind_Ret_inv in H as (b & _ & H).
  apply bind_Ret_inv in H as (t & _ & H).
  apply bind_Ret_inv in H as (d & _ & H).
  apply bind_Ret_inv in H as (c & _ & H).
  apply bind_Ret_inv in H as (s & _ & H).
  assert (He : e = DirectoryEntry.mk (strip name) (strip ext)
                     (entry_attributes_of b) d t c s) by congruence.
  subst e. clear H.
  cbn [DirectoryEntry.filename DirectoryEntry.extension].
  split; [now exists name|]. split; [now exists ext|].
  split; [apply strip_trimmed|]. split; [apply strip_trimmed|].
  split; [|split].
  - pose proof (strip_length name).
    pose proof (utf8_decode_length _ _ Hname).
    pose proof (py_slice_length_nat (image r) offset 8). simpl in *. lia.
  - pose proof (strip_length ext).
    pose proof (utf8_decode_length _ _ Hext).
    pose proof (py_slice_length_nat (image r) (offset + 8) 3) as H3.
    replace (offset + 8 + Z.of_nat 3) with (offset + 11) in H3 by lia.
    lia.
  - intros Hascii. rewrite (utf8_decode_ascii _ Hascii) in Hname.
    congruence.
Qed.

Lemma X4_entry_names_witness :
  DirectoryEntry.filename Sample.entry_test =
    strip (map byte_val (py_slice (image Sample.reader_ok) 288 (288 + 8))).
Proof.
  refine (proj2 (proj2 (proj2 (proj2 (proj2 (proj2
            (X4_entry_names Sample.reader_ok 288 Sample.entry_test _))))))
            _).
  - vm_compute. reflexivity.
  - vm_compute. repeat constructor.
Defined.

(** ** The extent of a directory *)

Lemma len_cons {A} (x : A) (l : list A) : len (x :: l) = 1 + len l.
Proof. unfold len. simpl List.length. lia. Qed.

Lemma slots_to_stop (r : Fat16Reader) (offset : Z)
    (es : list DirectoryEntry.t) (stop : Z) :
  slots_to r offset es stop -> stop = offset + 32 * len es.
Proof.
  induction 1 as [offset|offset first e es stop _ _ _ _ IH].
  - unfold len. simpl. lia.
  - rewrite len_cons. lia.
Qed.

Lemma slots_to_nth (r : Fat16Reader) (offset : Z)
    (es : list DirectoryEntry.t) (stop : Z) :
  slots_to r offset es stop ->
  forall i e,
    nth_error es i = Some e ->
    _read_entry r (offset + 32 * Z.of_nat i) = Ret e.
Proof.
  induction 1 as [offset|offset first e0 es stop _ _ Hentry _ IH];
    intros i e Hi.
  - destruct i; discriminate.
  - destruct i as [|i]; simpl in Hi.
    + injection Hi as <-. now replace (offset + 32 * Z.of_nat 0)
                                with offset by lia.
    + apply IH in Hi.
      now replace (offset + 32 * Z.of_nat (S i))
        with (offset + 32 + 32 * Z.of_nat i) by lia.
Qed.

(** X5: a directory that [_read_directory] returns for an offset from 0
    on lies inside the image together with the slot that ends it: the
    [i]-th entry is the decoding of the [i]-th slot and the byte after the
    last of them is the 0x00 found; an offset at or behind the end of the
    image raises [IndexError]. *)
Theorem X5_read_directory_extent (r : Fat16Reader) (offset : Z) :
  (forall es,
      0 <= offset ->
      _read_directory r offset = Ret es ->
      offset + 32 * len es < len (image r)
      /\ py_index (image r) (offset + 32 * len es) = Ret 0
      /\ forall i e, nth_error es i = Some e ->
                     _read_entry r (offset + 32 * Z.of_nat i) = Ret e)
  /\ (len (image r) <= offset ->
      _read_directory r offset = Raise IndexError).
Proof.
  split.
  - intros es Hoff H. apply _read_directory_slots in H.
    destruct H as (stop & Hto & Hend).
    pose proof (slots_to_stop _ _ _ _ Hto) as Hstop. subst stop.
    split; [now apply py_index_Ret_range in Hend|].
    split; [exact Hend|]. now apply slots_to_nth with (stop := offset + 32 * len es).
  - intros Hout. unfold _read_directory.
    assert (Hidx : py_index (image r) offset = Raise IndexError).
    { unfold py_index. pose proof (Zle_0_nat (List.length (image r))).
      unfold len in *.
      destruct (offset <? 0) eqn:Hneg; zbool; [lia|].
      destruct (_ && _) eqn:Hin; [zbool; lia|reflexivity]. }
    destruct (read_directory_turns r); cbn [read_directory_loop];
      now rewrite Hidx.
Qed.

Lemma X5_read_directory_extent_witness :
  256 + 32 * len (_current_entries Sample.reader_ok)
    < len (image Sample.reader_ok)
  /\ py_index (image Sample.reader_ok)
       (256 + 32 * len (_current_entries Sample.reader_ok)) = Ret 0.
Proof.
  destruct (proj1 (X5_read_directory_extent Sample.reader_ok 256)
              (_current_entries Sample.reader_ok))
    as (Hinside & Hend & _).
  - vm_compute. discriminate.
  - vm_compute. reflexivity.
  - split; assumption.
Defined.

(** ** What a walk returns *)

Lemma unpack_H_range (s : pybytes) (v : Z) :
  unpack_H s = Ret v -> 0 <= v < 65536.
Proof.
  destruct s as [|b0 [|b1 [|b2 s]]]; try discriminate.
  unfold unpack_H. intros H.
  assert (Hv : v = byte_val b0 + 256 * byte_val b1) by congruence.
  pose proof (byte_val_range b0). pose proof (byte_val_range b1). lia.
Qed.

Lemma check_next_inv (r : Fat16Reader) (c : Z) (b : bool) (v : Z) :
  _check_next_in_fat r c = Ret (b, v) ->
  fat_entry r c = Ret v /\ b = negb (is_notable v) /\ 0 <= v < 65536.
Proof.
  unfold _check_next_in_fat, fat_entry, is_notable. intros H.
  apply bind_Ret_inv in H as (v' & Hv & H).
  assert (Hr := unpack_H_range _ _ Hv).
  destruct (dict_has_key _fat_16_notable_values v') eqn:Hn;
    injection H as <- <-; rewrite Hn; auto.
Qed.

Lemma walk_links (fuel : nat) (r : Fat16Reader) :
  forall c acc cs,
    (next <- _check_next_in_fat r c ;;
     clusters_loop fuel r (acc ++ [c]) next) = Ret cs ->
    exists tail v,
      cs = acc ++ tail /\ fat_links r c tail v
      /\ (List.length tail <= S fuel)%nat /\ 0 <= v < 65536.
Proof.
  induction fuel as [|fuel IH]; intros c acc cs H;
    apply bind_Ret_inv in H as ([b v] & Hnext & H);
    apply check_next_inv in Hnext as (Hentry & -> & Hv);
    cbn [clusters_loop fst snd] in H;
    (destruct (is_notable v) eqn:Hn; cbn [negb] in H;
     [ injection H as <-; exists [c], v;
       repeat split; try lia; [now constructor | simpl; lia]
     | ]).
  - discriminate.
  - apply IH in H as (tail & v' & -> & Hlinks & Hlen & Hv').
    exists (c :: tail), v'. rewrite <- app_assoc.
    repeat split; try lia.
    + now apply fat_links_next with (c' := v).
    + simpl. lia.
Qed.

Lemma fat_links_tail (r : Fat16Reader) (c : Z) (cs : list Z) (v : Z) :
  fat_links r c cs v ->
  exists rest,
    cs = c :: rest
    /\ forall c', In c' rest -> 0 <= c' < 65536 /\ is_notable c' = false.
Proof.
  induction 1 as [c v _ _ | c c' cs v Hentry Hn _ (rest & -> & IH)].
  - exists []. split; [reflexivity | intros c' []].
  - exists (c' :: rest). split; [reflexivity|].
    intros x [<-|Hx]; [|now apply IH].
    split; [|assumption]. now apply unpack_H_range in Hentry.
Qed.

(** X6: what [_get_clusters_list] returns is the empty list for the start
    cluster 0 and for no other; from another start cluster it is that
    cluster followed by the FAT entry of each cluster before, as long as
    the entry is not in the table of notable values, and the entry of the
    last cluster is in the table; the list has one cluster more than the
    loop took turns, and every cluster after the first is a 16-bit value
    outside the table. *)
Theorem X6_walk_result (fuel : nat) (r : Fat16Reader)
    (e : DirectoryEntry.t) (cs : list Z) :
  _get_clusters_list fuel r e = Ret cs ->
  (cs = [] <-> DirectoryEntry.cluster_number e = 0)
  /\ (DirectoryEntry.cluster_number e <> 0 ->
      exists v rest,
        fat_links r (DirectoryEntry.cluster_number e) cs v
        /\ cs = DirectoryEntry.cluster_number e :: rest
        /\ (List.length cs <= S fuel)%nat
        /\ (forall c, In c rest ->
                      0 <= c < 65536 /\ is_notable c = false)).
Proof.
  unfold _get_clusters_list.
  destruct (DirectoryEntry.cluster_number e =? 0) eqn:Hzero; zbool.
  - intros [= <-]. split; [tauto|]. intros Hne. contradiction.
  - intros H.
    apply (walk_links fuel r _ []) in H as (tail & v & -> & Hlinks & Hlen & _).
    destruct (fat_links_tail _ _ _ _ Hlinks) as (rest & -> & Hrest).
    split; [split; [discriminate|contradiction]|].
    intros _. exists v, rest. auto.
Qed.

Lemma X6_walk_result_witness : (List.length [3; 4] <= 2)%nat.
Proof.
  destruct (proj2 (X6_walk_result 1 Sample.reader_ok Sample.entry_hello
                     [3; 4] ltac:(vm_compute; reflexivity)))
    as (v & rest & _ & _ & Hlen & _).
  - vm_compute. discriminate.
  - exact Hlen.
Defined.

(** ** Loading the clusters of a directory *)

Lemma cd_extend_loop_reads (r : Fat16Reader) (linked_list : list Z)
    (ess : list (list DirectoryEntry.t)) :
  Forall2 (fun c es => _read_directory r (cluster_start r c) = Ret es)
    linked_list ess ->
  forall acc,
    cd_extend_loop linked_list (set_current_entries r acc) =
      (Ret tt, set_current_entries r (acc ++ List.concat ess)).
Proof.
  induction 1 as [|c es cl ess Hread _ IH]; intros acc.
  - cbn [cd_extend_loop List.concat]. now rewrite app_nil_r.
  - cbn [cd_extend_loop List.concat].
    unfold mbind at 1. unfold reading at 1.
    change (cluster_start (set_current_entries r acc) c)
      with (cluster_start r c).
    rewrite _read_directory_set, Hread.
    unfold mbind at 1. unfold reading at 1.
    unfold mbind at 1. unfold assign_current_entries at 1.
    change (set_current_entries (set_current_entries r acc)
              (_current_entries (set_current_entries r acc) ++ es))
      with (set_current_entries r (acc ++ es)).
    rewrite IH, <- app_assoc. reflexivity.
Qed.

Lemma cd_extend_loop_returns (r : Fat16Reader) (linked_list : list Z) :
  forall acc r',
    cd_extend_loop linked_list (set_current_entries r acc) = (Ret tt, r') ->
    exists ess,
      Forall2 (fun c es => _read_directory r (cluster_start r c) = Ret es)
        linked_list ess
      /\ r' = set_current_entries r (acc ++ List.concat ess).
Proof.
  induction linked_list as [|c cl IH]; intros acc r' H.
  - cbn [cd_extend_loop] in H. injection H as <-.
    exists []. split; [constructor|]. cbn [List.concat].
    now rewrite app_nil_r.
  - cbn [cd_extend_loop] in H.
    unfold mbind at 1 in H. unfold reading at 1 in H.
    change (cluster_start (set_current_entries r acc) c)
      with (cluster_start r c) in H.
    rewrite _read_directory_set in H.
    destruct (_read_directory r (cluster_start r c)) as [es| |] eqn:Hread;
      try discriminate.
    unfold mbind at 1 in H. unfold reading at 1 in H.
    unfold mbind at 1 in H. unfold assign_current_entries at 1 in H.
    change (set_current_entries (set_current_entries r acc)
              (_current_entries (set_current_entries r acc) ++ es))
      with (set_current_entries r (acc ++ es)) in H.
    apply IH in H as (ess & Hall & ->).
    exists (es :: ess). split; [now constructor|].
    cbn [List.concat]. now rewrite <- app_assoc.
Qed.

Lemma cd_extend_loop_fails (r : Fat16Reader) (c : Z) (cl2 : list Z)
    (x : exn) (acc : list DirectoryEntry.t) :
  _read_directory r (cluster_start r c) = Raise x ->
  cd_extend_loop (c :: cl2) (set_current_entries r acc) =
    (Raise x, set_current_entries r acc).
Proof.
  intros Hread. cbn [cd_extend_loop].
  unfold mbind at 1. unfold reading at 1.
  change (cluster_start (set_current_entries r acc) c)
    with (cluster_start r c).
  now rewrite _read_directory_set, Hread.
Qed.

Lemma cd_extend_loop_app (l1 l2 : list Z) :
  forall r,
    cd_extend_loop (l1 ++ l2) r =
      (_ <-- cd_extend_loop l1 ;; cd_extend_loop l2) r.
Proof.
  induction l1 as [|c l1 IH]; intros r; [reflexivity|].
  cbn [cd_extend_loop app]. unfold mbind, reading, assign_current_entries in *.
  destruct (_read_directory r (cluster_start r c)); try reflexivity.
  apply IH.
Qed.

(** X8: [_cd_set_current_entries] drops the entries the reader had and
    returns exactly when the directory read at the start of every cluster
    of the list returns; the entries are then these directories one after
    the other, in the order of the list.  When the read of one cluster
    raises, the call raises the same and leaves the reader with the
    entries of the clusters before it. *)
Theorem X8_cd_set_current_entries (r : Fat16Reader)
    (linked_list : list Z) :
  (forall ess,
      Forall2 (fun c es => _read_directory r (cluster_start r c) = Ret es)
        linked_list ess ->
      _cd_set_current_entries linked_list r =
        (Ret tt, set_current_entries r (List.concat ess)))
  /\ (forall r',
         _cd_set_current_entries linked_list r = (Ret tt, r') ->
         exists ess,
           Forall2
             (fun c es => _read_directory r (cluster_start r c) = Ret es)
             linked_list ess
           /\ r' = set_current_entries r (List.concat ess))
  /\ (forall cl1 c cl2 ess x,
         linked_list = cl1 ++ c :: cl2 ->
         Forall2
           (fun c es => _read_directory r (cluster_start r c) = Ret es)
           cl1 ess ->
         _read_directory r (cluster_start r c) = Raise x ->
         _cd_set_current_entries linked_list r =
           (Raise x, set_current_entries r (List.concat ess))).
Proof.
  unfold _cd_set_current_entries. split; [|split].
  - intros ess Hall. unfold mbind, assign_current_entries.
    exact (cd_extend_loop_reads r linked_list ess Hall []).
  - intros r' H. unfold mbind, assign_current_entries in H.
    exact (cd_extend_loop_returns r linked_list [] r' H).
  - intros cl1 c cl2 ess x -> Hall Hread.
    unfold mbind at 1. unfold assign_current_entries at 1.
    rewrite cd_extend_loop_app. unfold mbind at 1.
    rewrite (cd_extend_loop_reads r cl1 ess Hall []). cbn [app].
    now apply cd_extend_loop_fails.
Qed.

Lemma X8_cd_set_current_entries_witness :
  _cd_set_current_entries [2] Sample.reader_ok =
    (Ret tt,
     set_current_entries Sample.reader_ok
       (List.concat [[Sample.entry_dot; Sample.entry_dotdot;
                      Sample.entry_one]])).
Proof.
  apply (proj1 (X8_cd_set_current_entries Sample.reader_ok [2])).
  constructor; [vm_compute; reflexivity | constructor].
Defined.

(** X9: [_read_directory] does not stop at the end of a cluster.  When the
    first cluster of a directory is full, so that its slots run on into
    the cluster that comes next in the chain and lies behind it in the
    image, [_cd_set_current_entries] lists the entries of that second
    cluster twice. *)
Theorem X9_full_cluster_listed_twice (r : Fat16Reader) (c c' : Z)
    (es1 es2 : list DirectoryEntry.t) :
  slots_to r (cluster_start r c) es1 (cluster_start r c') ->
  slots r (cluster_start r c') es2 ->
  _cd_set_current_entries [c; c'] r =
    (Ret tt, set_current_entries r ((es1 ++ es2) ++ es2)).
Proof.
  intros Hfirst Hsecond.
  assert (H1 : _read_directory r (cluster_start r c) = Ret (es1 ++ es2)).
  { apply _read_directory_slots.
    destruct Hsecond as (stop & Hto & Hend). exists stop.
    split; [|exact Hend]. now apply slots_to_app with (b := cluster_start r c'). }
  assert (H2 : _read_directory r (cluster_start r c') = Ret es2)
    by now apply _read_directory_slots.
  unfold _cd_set_current_entries, mbind, assign_current_entries.
  rewrite (cd_extend_loop_reads r [c; c'] [es1 ++ es2; es2]).
  - cbn [List.concat app]. now rewrite app_nil_r.
  - repeat constructor; assumption.
Qed.

Lemma X9_full_cluster_listed_twice_witness :
  _cd_set_current_entries [2; 3] SampleLong.reader_long =
    (Ret tt,
     set_current_entries SampleLong.reader_long
       (([Sample.entry_dot; Sample.entry_dotdot; SampleLong.entry_a;
          SampleLong.entry_b] ++ [SampleLong.entry_c])
        ++ [SampleLong.entry_c])).
Proof.
  apply (X9_full_cluster_listed_twice SampleLong.reader_long 2 3).
  - apply slots_to_entry with (first := 46);
      [vm_compute; reflexivity | discriminate | vm_compute; reflexivity|].
    apply slots_to_entry with (first := 46);
      [vm_compute; reflexivity | discriminate | vm_compute; reflexivity|].
    apply slots_to_entry with (first := 65);
      [vm_compute; reflexivity | discriminate | vm_compute; reflexivity|].
    apply slots_to_entry with (first := 66);
      [vm_compute; reflexivity | discriminate | vm_compute; reflexivity|].
    apply slots_to_here.
  - apply _read_directory_slots. vm_compute. reflexivity.
Defined.

(** ** Entering directories *)

Lemma _get_clusters_list_cluster (fuel : nat) (r : Fat16Reader)
    (e e' : DirectoryEntry.t) :
  DirectoryEntry.cluster_number e = DirectoryEntry.cluster_number e' ->
  _get_clusters_list fuel r e = _get_clusters_list fuel r e'.
Proof. unfold _get_clusters_list. now intros ->. Qed.

Lemma cd_enter_cluster (fuel : nat) (r : Fat16Reader)
    (e e' : DirectoryEntry.t) :
  DirectoryEntry.cluster_number e = DirectoryEntry.cluster_number e' ->
  cd_enter fuel e r = cd_enter fuel e' r.
Proof.
  intros H. unfold cd_enter, mbind, reading.
  now rewrite (_get_clusters_list_cluster fuel r e e' H).
Qed.

(** [cd] on a name that one entry of the listing matches. *)
Lemma cd_single (fuel : nat) (name : pystr) (r : Fat16Reader)
    (l1 l2 : list DirectoryEntry.t) (e : DirectoryEntry.t) :
  _current_entries r = l1 ++ e :: l2 ->
  cd_matches name e = true ->
  existsb (cd_matches name) l1 = false ->
  existsb (cd_matches name) l2 = false ->
  cd fuel name r =
    match cd_enter fuel e r with
    | (Ret _, r') => (Ret (Some (_current_entries r')), r')
    | (Raise x, r') => (Raise x, r')
    | (OutOfFuel, r') => (OutOfFuel, r')
    end.
Proof.
  intros Hentries Hmatch H1 H2. unfold cd.
  unfold mbind at 1. unfold reading at 1. rewrite Hentries.
  unfold mbind at 1. rewrite cd_loop_app. unfold mbind at 1.
  rewrite (cd_loop_no_match _ _ _ H1).
  cbn [cd_loop]. rewrite Hmatch. unfold mbind at 1.
  destruct (cd_enter fuel e r) as [[[]| |] r1]; try reflexivity.
  rewrite (cd_loop_no_match _ _ _ H2). reflexivity.
Qed.

Lemma cd_same_disk (fuel : nat) (name : pystr) (r : Fat16Reader) :
  same_disk r (snd (cd fuel name r)).
Proof.
  unfold cd, mbind, reading.
  pose proof (cd_loop_same_disk fuel name (_current_entries r) false r)
    as Hdisk.
  destruct (cd_loop fuel name (_current_entries r) false r)
    as [[found| |] r1]; cbn [snd] in Hdisk; try exact Hdisk.
  unfold mret, raise.
  destruct (negb found && do_print_on_commands r1); [exact Hdisk|].
  destruct (negb found && negb (do_print_on_commands r1)); exact Hdisk.
Qed.

(** X10: entering a directory depends on the start cluster of the entry
    alone, so [cd] on the entry of a listing that has the start cluster of
    the listed directory itself, as [.] has, returns the same listing and
    leaves the reader as it is. *)
Theorem X10_cd_self (fuel : nat) (name : pystr) (r0 r : Fat16Reader)
    (e0 e : DirectoryEntry.t) (l1 l2 : list DirectoryEntry.t) :
  cd_enter fuel e0 r0 = (Ret tt, r) ->
  _current_entries r = l1 ++ e :: l2 ->
  cd_matches name e = true ->
  existsb (cd_matches name) l1 = false ->
  existsb (cd_matches name) l2 = false ->
  DirectoryEntry.cluster_number e = DirectoryEntry.cluster_number e0 ->
  cd fuel name r = (Ret (Some (_current_entries r)), r).
Proof.
  intros Henter Hentries Hmatch H1 H2 Hcluster.
  rewrite (cd_single fuel name r l1 l2 e Hentries Hmatch H1 H2).
  rewrite (cd_enter_cluster fuel r e e0 Hcluster).
  pose proof (cd_enter_same_disk fuel e0 r0) as Hdisk.
  rewrite Henter in Hdisk. cbn [snd] in Hdisk.
  destruct (cd_enter_same fuel e0 r0 r Hdisk) as [Hfst Hsnd].
  rewrite Henter in Hfst, Hsnd. cbn [fst snd] in Hfst, Hsnd.
  specialize (Hsnd eq_refl).
  destruct (cd_enter fuel e0 r) as [o r1]. cbn [fst snd] in Hfst, Hsnd.
  subst o r1. reflexivity.
Qed.

Lemma X10_cd_self_witness :
  cd 0 (str ".") (Sample.in_test Sample.reader_ok) =
    (Ret (Some (_current_entries (Sample.in_test Sample.reader_ok))),
     Sample.in_test Sample.reader_ok).
Proof.
  apply (X10_cd_self 0 (str ".") Sample.reader_ok
           (Sample.in_test Sample.reader_ok) Sample.entry_test
           Sample.entry_dot [] [Sample.entry_dotdot; Sample.entry_one]);
    vm_compute; reflexivity.
Defined.

Lemma set_current_entries_same (r : Fat16Reader) :
  set_current_entries r (_current_entries r) = r.
Proof. now destruct r. Qed.

(** X11: from the reader that the constructor returns, a [cd] that
    returns followed by [cd] on an entry of the new listing with start
    cluster 0, as [..] has in a directory of the root, gives back the
    listing of the root and the reader the constructor returned. *)
Theorem X11_cd_parent_is_root (img : pybytes) (do_print : bool)
    (fuel : nat) (name parent : pystr) (r r1 : Fat16Reader)
    (v : option (list DirectoryEntry.t))
    (l1 l2 : list DirectoryEntry.t) (e : DirectoryEntry.t) :
  init img do_print = Ret r ->
  cd fuel name r = (Ret v, r1) ->
  _current_entries r1 = l1 ++ e :: l2 ->
  cd_matches parent e = true ->
  existsb (cd_matches parent) l1 = false ->
  existsb (cd_matches parent) l2 = false ->
  DirectoryEntry.cluster_number e = 0 ->
  cd fuel parent r1 = (Ret (Some (_current_entries r)), r).
Proof.
  intros Hinit Hcd Hentries Hmatch H1 H2 Hzero.
  assert (Hroot : _read_directory r (_root_directory_offset r)
                  = Ret (_current_entries r)).
  { unfold init in Hinit.
    apply bind_Ret_inv in Hinit as (r0 & Hboot & Hinit).
    apply bind_Ret_inv in Hinit as (es & Hread & Hinit).
    injection Hinit as <-. rewrite _read_directory_set.
    cbn [_current_entries set_current_entries].
    unfold _read_boot_sector in Hboot.
    repeat (apply bind_Ret_inv in Hboot as (? & _ & Hboot)).
    injection Hboot as <-. exact Hread. }
  pose proof (cd_same_disk fuel name r) as Hdisk.
  rewrite Hcd in Hdisk. cbn [snd] in Hdisk.
  rewrite (cd_single fuel parent r1 l1 l2 e Hentries Hmatch H1 H2).
  unfold cd_enter, mbind, reading, _get_clusters_list.
  rewrite Hzero. change (0 =? 0) with true. cbv iota.
  change (0 <? len (@nil Z)) with false. cbv iota.
  unfold assign_current_entries.
  unfold same_disk in Hdisk. rewrite Hdisk.
  change (_root_directory_offset (set_current_entries r ?es))
    with (_root_directory_offset r).
  rewrite _read_directory_set, Hroot.
  cbn [_current_entries set_current_entries].
  change (set_current_entries (set_current_entries r ?a) ?b)
    with (set_current_entries r b).
  now rewrite set_current_entries_same.
Qed.

Lemma X11_cd_parent_is_root_witness :
  cd 0 (str "..") (Sample.in_test Sample.reader_ok) =
    (Ret (Some (_current_entries Sample.reader_ok)), Sample.reader_ok).
Proof.
  apply (X11_cd_parent_is_root Sample.image_ok false 0 (str "TEST")
           (str "..") Sample.reader_ok (Sample.in_test Sample.reader_ok)
           (Some (_current_entries (Sample.in_test Sample.reader_ok)))
           [Sample.entry_dot] [Sample.entry_one] Sample.entry_dotdot);
    vm_compute; reflexivity.
Defined.

(** ** Composing and opening files *)

(** X12: [_compose_file] raises [IndexError] on the empty chain and on no
    other; on any other chain it returns a file with the name, extension
    and size of the entry whose content is read from the first cluster
    alone, the clusters after it changing nothing: the bytes from the
    start of that cluster up to the declared size or the end of the
    cluster, whichever comes first, never more than either. *)
Theorem X12_compose_file (r : Fat16Reader) (clusters_list : list Z)
    (e : DirectoryEntry.t) :
  (clusters_list = [] <-> _compose_file r clusters_list e = Raise IndexError)
  /\ (forall c rest,
         clusters_list = c :: rest ->
         exists f,
           _compose_file r clusters_list e = Ret f
           /\ _compose_file r [c] e = Ret f
           /\ FileInfo.filename f = DirectoryEntry.filename e
           /\ FileInfo.extension f = DirectoryEntry.extension e
           /\ FileInfo.filesize f = DirectoryEntry.filesize e
           /\ FileInfo.bytes f =
                py_slice (image r) (cluster_start r c)
                  (cluster_start r c
                   + Z.min (DirectoryEntry.filesize e)
                       (_cluster_size r * _sector_size r))
           /\ (0 <= DirectoryEntry.filesize e ->
               0 <= _cluster_size r * _sector_size r ->
               len (FileInfo.bytes f)
               <= Z.min (DirectoryEntry.filesize e)
                    (_cluster_size r * _sector_size r))).
Proof.
  split.
  - split; [now intros ->|].
    destruct clusters_list as [|c rest]; [reflexivity|].
    rewrite _compose_file_first. discriminate.
  - intros c rest ->. eexists.
    split; [apply _compose_file_first|].
    split; [apply _compose_file_first|].
    cbn [FileInfo.filename FileInfo.extension FileInfo.filesize
           FileInfo.bytes].
    repeat (split; [reflexivity|]).
    intros Hsize Hcap.
    match goal with
    | |- len (py_slice ?l ?a ?b) <= _ =>
        pose proof (py_slice_length_le l a b)
    end.
    lia.
Qed.

Lemma X12_compose_file_witness :
  _compose_file Sample.reader_ok [3; 4] Sample.entry_hello =
  _compose_file Sample.reader_ok [3] Sample.entry_hello.
Proof.
  destruct (proj2 (X12_compose_file Sample.reader_ok [3; 4]
                     Sample.entry_hello) 3 [4] eq_refl)
    as (f & Hall & Hfirst & _).
  now rewrite Hall, Hfirst.
Defined.

Lemma _compose_file_raises (r : Fat16Reader) (cl : list Z)
    (e : DirectoryEntry.t) :
  raises_only read_error (_compose_file r cl e).
Proof.
  destruct cl as [|c rest].
  - intros x [= <-]. unfold read_error. auto.
  - rewrite _compose_file_first. apply Ret_raises_only.
Qed.

Lemma open_file_loop_raises (fuel : nat) (name : pystr)
    (entries : list DirectoryEntry.t) :
  forall found file r,
    raises_only read_error
      (fst (open_file_loop fuel name entries found file r)).
Proof.
  induction entries as [|e rest IH]; intros found file r;
    cbn [open_file_loop]; [apply Ret_raises_only|].
  destruct (pystr_eqb _ _); [|apply IH].
  destruct (is_file_entry e); [|apply IH].
  unfold mbind, reading.
  pose proof (_get_clusters_list_raises fuel r e) as Hlist.
  destruct (_get_clusters_list fuel r e) as [cl| |];
    [ | raised Hlist | intros x Hx; discriminate].
  pose proof (_compose_file_raises r cl e) as Hfile.
  destruct (_compose_file r cl e);
    [apply IH | raised Hfile | intros x Hx; discriminate].
Qed.

(** What the loop of [open_file] leaves in [found] and [file]. *)
Lemma open_file_loop_state (fuel : nat) (name : pystr)
    (entries : list DirectoryEntry.t) :
  forall found file r found' file' r',
    open_file_loop fuel name entries found file r
      = (Ret (found', file'), r') ->
    found' = found || existsb (name_is name) entries
    /\ (existsb (opens name) entries = false -> file' = file)
    /\ (existsb (opens name) entries = true -> file' <> None)
    /\ (forall e, In e entries -> opens name e = true ->
                  exists cl f, _get_clusters_list fuel r e = Ret cl
                               /\ _compose_file r cl e = Ret f).
Proof.
  induction entries as [|e rest IH]; intros found file r found' file' r';
    cbn [open_file_loop existsb].
  - intros [= <- <- _]. rewrite orb_false_r.
    repeat split; try discriminate; try tauto. intros e [].
  - assert (Ho : opens name e =
                 pystr_eqb (DirectoryEntry.filename e) name
                 && is_file_entry e) by reflexivity.
    assert (Hn : name_is name e =
                 pystr_eqb (DirectoryEntry.filename e) name)
      by reflexivity.
    rewrite !Ho, !Hn. clear Ho Hn.
    destruct (pystr_eqb (DirectoryEntry.filename e) name) eqn:Hname;
      cbn [andb orb].
    + destruct (is_file_entry e) eqn:Hfile; cbn [orb].
      * unfold mbind, reading.
        destruct (_get_clusters_list fuel r e) as [cl| |] eqn:Hlist;
          try discriminate.
        destruct (_compose_file r cl e) as [f| |] eqn:Hcompose;
          try discriminate.
        intros H. apply IH in H as (Hfound & Hkeep & Hset & Hall).
        split; [now rewrite Hfound, orb_true_r|].
        split; [discriminate|]. split.
        { intros _. destruct (existsb (opens name) rest) eqn:Hrest;
            [now apply Hset | rewrite Hkeep by reflexivity; discriminate]. }
        intros e' [<-|Hin] Hopens; [now exists cl, f | now apply Hall].
      * intros H. apply IH in H as (Hfound & Hkeep & Hset & Hall).
        split; [now rewrite Hfound, orb_true_r|].
        split; [assumption|]. split; [assumption|].
        intros e' [<-|Hin] Hopens; [|now apply Hall].
        unfold opens, name_is in Hopens. rewrite Hname, Hfile in Hopens.
        discriminate.
    + intros H. apply IH in H as (Hfound & Hkeep & Hset & Hall).
      split; [assumption|]. split; [assumption|]. split; [assumption|].
      intros e' [<-|Hin] Hopens; [|now apply Hall].
      unfold opens, name_is in Hopens. rewrite Hname in Hopens.
      discriminate.
Qed.

(** X13: an [open_file] that returns a file has composed every entry of
    the listing that has the name and is a file, none of them failing, and
    returns the file of the last of them. *)
Theorem X13_open_file_last (fuel : nat) (name : pystr) (r : Fat16Reader)
    (l1 l2 : list DirectoryEntry.t) (e : DirectoryEntry.t)
    (v : option FileInfo.t) :
  _current_entries r = l1 ++ e :: l2 ->
  opens name e = true ->
  existsb (opens name) l2 = false ->
  fst (open_file fuel name r) = Ret v ->
  (exists cl f,
      _get_clusters_list fuel r e = Ret cl
      /\ _compose_file r cl e = Ret f
      /\ v = Some f)
  /\ (forall e', In e' (_current_entries r) -> opens name e' = true ->
                 exists cl f, _get_clusters_list fuel r e' = Ret cl
                              /\ _compose_file r cl e' = Ret f).
Proof.
  intros Hentries Hopens Hlater. unfold open_file.
  unfold mbind at 1. unfold reading at 1.
  unfold mbind at 1.
  destruct (open_file_loop fuel name (_current_entries r) false None r)
    as [[[found file]| |] r1] eqn:Hloop; try discriminate.
  pose proof (open_file_loop_frame fuel name (_current_entries r)
                false None r) as Hframe.
  rewrite Hloop in Hframe. cbn [snd] in Hframe. subst r1.
  pose proof (open_file_loop_state _ _ _ _ _ _ _ _ _ Hloop)
    as (Hfound & _ & _ & Hall).
  rewrite Hentries in Hloop. rewrite open_file_loop_app in Hloop.
  unfold mbind at 1 in Hloop.
  destruct (open_file_loop fuel name l1 false None r)
    as [[[found1 file1]| |] r1] eqn:Hloop1; try discriminate.
  pose proof (open_file_loop_frame fuel name l1 false None r) as Hframe1.
  rewrite Hloop1 in Hframe1. cbn [snd] in Hframe1. subst r1.
  cbn [open_file_loop fst snd] in Hloop.
  unfold opens in Hopens. apply andb_true_iff in Hopens as [Hname Hfile].
  unfold name_is in Hname. rewrite Hname, Hfile in Hloop.
  unfold mbind at 1 2 in Hloop. unfold reading at 1 2 in Hloop.
  destruct (_get_clusters_list fuel r e) as [cl| |] eqn:Hlist;
    try discriminate.
  destruct (_compose_file r cl e) as [f| |] eqn:Hcompose; try discriminate.
  apply open_file_loop_state in Hloop as (Hfound2 & Hkeep & _ & _).
  specialize (Hkeep Hlater). subst file.
  cbn [orb] in Hfound2. subst found.
  unfold mbind, reading, mret. cbn [fst snd negb andb].
  intros [= <-]. split; [now exists cl, f|]. exact Hall.
Qed.

Lemma X13_open_file_last_witness :
  exists cl f,
    _get_clusters_list 1 SampleMore.reader_two_files SampleMore.entry_f_dat
      = Ret cl
    /\ _compose_file SampleMore.reader_two_files cl SampleMore.entry_f_dat
       = Ret f
    /\ fst (open_file 1 (str "F") SampleMore.reader_two_files)
       = Ret (Some f)
    /\ FileInfo.extension f = str "DAT".
Proof.
  destruct (X13_open_file_last 1 (str "F") SampleMore.reader_two_files
              [SampleMore.entry_f_txt] [] SampleMore.entry_f_dat
              match fst (open_file 1 (str "F")
                           SampleMore.reader_two_files) with
              | Ret v => v
              | _ => None
              end)
    as ((cl & f & Hcl & Hf & Hv) & _).
  - vm_compute. reflexivity.
  - vm_compute. reflexivity.
  - vm_compute. reflexivity.
  - vm_compute. reflexivity.
  - exists cl, f. split; [assumption|]. split; [assumption|].
    split; [rewrite <- Hv; vm_compute; reflexivity|].
    vm_compute in Hv. injection Hv as <-. vm_compute. reflexivity.
Defined.

Ltac decide_iffs :=
  repeat match goal with
         | |- _ /\ _ => split
         | |- _ <-> _ => split
         | |- _ -> _ => intro
         | H : _ /\ _ |- _ => destruct H
         end;
  try discriminate; try reflexivity.

Lemma opens_name_is (name : pystr) (entries : list DirectoryEntry.t) :
  existsb (name_is name) entries = false ->
  existsb (opens name) entries = false.
Proof.
  induction entries as [|e l IH]; [reflexivity|].
  cbn [existsb]. intros H. apply orb_false_iff in H as [He Hl].
  unfold opens at 1. rewrite He. now apply IH.
Qed.

Lemma open_file_loop_no_file (fuel : nat) (name : pystr)
    (entries : list DirectoryEntry.t) :
  existsb (opens name) entries = false ->
  forall found file r,
    open_file_loop fuel name entries found file r =
      (Ret (found || existsb (name_is name) entries, file), r).
Proof.
  induction entries as [|e rest IH]; intros Hno found file r;
    cbn [open_file_loop existsb].
  - now rewrite orb_false_r.
  - cbn [existsb] in Hno. apply orb_false_iff in Hno as [He Hrest].
    unfold opens, name_is in He. unfold name_is at 1.
    destruct (pystr_eqb (DirectoryEntry.filename e) name);
      cbn [andb orb] in *.
    + rewrite He, (IH Hrest). now rewrite orb_true_r.
    + now rewrite (IH Hrest).
Qed.

Lemma open_file_no_file (fuel : nat) (name : pystr) (r : Fat16Reader) :
  existsb (name_is name) (_current_entries r) = true ->
  existsb (opens name) (_current_entries r) = false ->
  open_file fuel name r = (Raise UnboundLocalError, r).
Proof.
  intros Hname Hopens. unfold open_file, mbind, reading.
  rewrite (open_file_loop_no_file _ _ _ Hopens), Hname. reflexivity.
Qed.

Lemma open_file_with_file (fuel : nat) (name : pystr) (r : Fat16Reader) :
  existsb (opens name) (_current_entries r) = true ->
  (exists f, fst (open_file fuel name r) = Ret (Some f))
  \/ (exists x, fst (open_file fuel name r) = Raise x /\ read_error x)
  \/ fst (open_file fuel name r) = OutOfFuel.
Proof.
  intros Hopens. unfold open_file, mbind, reading.
  pose proof (open_file_loop_raises fuel name (_current_entries r)
                false None r) as Hraise.
  destruct (open_file_loop fuel name (_current_entries r) false None r)
    as [[[found file]| |] r1] eqn:Hloop; cbn [fst snd] in *.
  - apply open_file_loop_state in Hloop as (Hfound & _ & Hset & _).
    specialize (Hset Hopens). cbn [orb] in Hfound.
    destruct (existsb (name_is name) (_current_entries r)) eqn:Hname.
    + subst found. cbn [negb andb]. destruct file as [f|]; [|contradiction].
      left. now exists f.
    + apply opens_name_is in Hname. congruence.
  - right. left. exists e. split; [reflexivity | now apply Hraise].
  - right. right. reflexivity.
Qed.

(** X14: how [open_file] ends by the names and attributes of the listing.
    It raises [NotAFileException] exactly when no entry has the name and
    the print flag is off, and returns [None] exactly when no entry has the
    name and the flag is on; it raises [UnboundLocalError] exactly when
    some entry has the name and none of these is a file. *)
Theorem X14_open_file_outcomes (fuel : nat) (name : pystr)
    (r : Fat16Reader) :
  (fst (open_file fuel name r) = Raise NotAFileException
   <-> existsb (name_is name) (_current_entries r) = false
       /\ do_print_on_commands r = false)
  /\ (fst (open_file fuel name r) = Ret None
      <-> existsb (name_is name) (_current_entries r) = false
          /\ do_print_on_commands r = true)
  /\ (fst (open_file fuel name r) = Raise UnboundLocalError
      <-> existsb (name_is name) (_current_entries r) = true
          /\ existsb (opens name) (_current_entries r) = false).
Proof.
  destruct (existsb (name_is name) (_current_entries r)) eqn:Hname.
  - destruct (existsb (opens name) (_current_entries r)) eqn:Hopens.
    + destruct (open_file_with_file fuel name r Hopens)
        as [(f & ->)|[(x & -> & [->|[->| ->]])| ->]]; decide_iffs.
    + rewrite (open_file_no_file fuel name r Hname Hopens). cbn [fst].
      decide_iffs.
  - rewrite (open_file_no_name fuel name r Hname),
      (opens_name_is _ _ Hname). cbn [fst].
    destruct (do_print_on_commands r); decide_iffs.
Qed.

Lemma X14_open_file_outcomes_witness :
  fst (open_file 0 (str "DUMMY") Sample.reader_ok) = Raise UnboundLocalError.
Proof.
  apply (proj2 (proj2 (X14_open_file_outcomes 0 (str "DUMMY")
                         Sample.reader_ok))).
  split; vm_compute; reflexivity.
Defined.

(** X15: how [cd] ends by the entries of the listing.  It raises
    [NotADirectoryException] exactly when no entry is a directory of the
    name and the print flag is off, and returns [None] exactly when there
    is none and the flag is on; the entries it returns otherwise are the
    current entries of the reader it leaves. *)
Theorem X15_cd_outcomes (fuel : nat) (name : pystr) (r : Fat16Reader) :
  (fst (cd fuel name r) = Raise NotADirectoryException
   <-> existsb (cd_matches name) (_current_entries r) = false
       /\ do_print_on_commands r = false)
  /\ (fst (cd fuel name r) = Ret None
      <-> existsb (cd_matches name) (_current_entries r) = false
          /\ do_print_on_commands r = true)
  /\ (forall es,
         fst (cd fuel name r) = Ret (Some es) ->
         existsb (cd_matches name) (_current_entries r) = true
         /\ es = _current_entries (snd (cd fuel name r))
         /\ ls (snd (cd fuel name r)) = (Ret es, snd (cd fuel name r))).
Proof.
  pose proof (cd_no_match fuel name r) as Hno.
  pose proof (cd_not_a_directory fuel name r) as Hnad.
  destruct (existsb (cd_matches name) (_current_entries r)) eqn:Hmatch.
  - assert (Hfound : forall v, fst (cd fuel name r) = Ret v ->
                               v = Some (_current_entries
                                           (snd (cd fuel name r)))).
    { unfold cd, mbind, reading.
      pose proof (cd_loop_found fuel name (_current_entries r) false r)
        as Hf.
      destruct (cd_loop fuel name (_current_entries r) false r)
        as [[found| |] r1]; try discriminate.
      specialize (Hf found r1 eq_refl). rewrite Hmatch in Hf. subst found.
      cbn [negb andb orb fst snd]. unfold mret. cbn [fst snd].
      now intros v [= <-]. }
    split; [|split].
    + split; [intros H; specialize (Hnad H); discriminate|].
      intros [H _]. discriminate.
    + split; [|intros [H _]; discriminate].
      intros H. apply Hfound in H. discriminate.
    + intros es H. split; [reflexivity|].
      apply Hfound in H. injection H as ->. split; reflexivity.
  - rewrite (Hno eq_refl). cbn [fst snd].
    destruct (do_print_on_commands r); decide_iffs.
Qed.

Lemma X15_cd_outcomes_witness :
  existsb (cd_matches (str "TEST")) (_current_entries Sample.reader_ok)
    = true
  /\ _current_entries (Sample.in_test Sample.reader_ok) =
       _current_entries (snd (cd 0 (str "TEST") Sample.reader_ok))
  /\ ls (snd (cd 0 (str "TEST") Sample.reader_ok)) =
       (Ret (_current_entries (Sample.in_test Sample.reader_ok)),
        snd (cd 0 (str "TEST") Sample.reader_ok)).
Proof.
  apply (proj2 (proj2 (X15_cd_outcomes 0 (str "TEST") Sample.reader_ok))).
  vm_compute. reflexivity.
Defined.

(** ** The order of the attributes *)

Lemma low_bits_zero (b : Z) :
  b mod 64 = 0
  <-> Z.testbit b 0 = false /\ Z.testbit b 1 = false
      /\ Z.testbit b 2 = false /\ Z.testbit b 3 = false
      /\ Z.testbit b 4 = false /\ Z.testbit b 5 = false.
Proof.
  change 64 with (2 ^ 6). split.
  - intros H.
    repeat split;
      match goal with
      | |- Z.testbit b ?k = false =>
          rewrite <- (Z.mod_pow2_bits_low b 6 k) by lia;
          rewrite H; apply Z.bits_0
      end.
  - intros (H0 & H1 & H2 & H3 & H4 & H5).
    apply Z.bits_inj'. intros n Hn. rewrite Z.bits_0.
    destruct (Z_lt_ge_dec n 6) as [Hlow|Hhigh].
    + rewrite Z.mod_pow2_bits_low by lia.
      assert (Hcases : n = 0 \/ n = 1 \/ n = 2 \/ n = 3 \/ n = 4 \/ n = 5)
        by lia.
      destruct Hcases as [->|[->|[->|[->|[->| ->]]]]]; assumption.
    + apply Z.mod_pow2_bits_high. lia.
Qed.

(** X16: the attribute list of a byte is the list of the six flags in the
    order of their bits, read_only, hidden, system, volume_id, directory,
    archive, with exactly those left out whose bit is clear in the byte; it
    depends on the six low bits alone, and it is empty exactly when these
    are all clear. *)
Theorem X16_attributes_order (attributes_byte : Z) :
  entry_attributes_of attributes_byte =
    map snd
      (filter (fun bit_flag => Z.testbit attributes_byte (fst bit_flag))
         flag_bits)
  /\ entry_attributes_of (attributes_byte mod 64)
     = entry_attributes_of attributes_byte
  /\ (entry_attributes_of attributes_byte = []
      <-> attributes_byte mod 64 = 0).
Proof.
  split; [|split].
  - rewrite entry_attributes_bits. unfold flag_bits.
    cbn [filter fst snd].
    destruct (Z.testbit attributes_byte 0), (Z.testbit attributes_byte 1),
      (Z.testbit attributes_byte 2), (Z.testbit attributes_byte 3),
      (Z.testbit attributes_byte 4), (Z.testbit attributes_byte 5);
      reflexivity.
  - rewrite !entry_attributes_bits.
    change 64 with (2 ^ 6).
    now rewrite !Z.mod_pow2_bits_low by lia.
  - rewrite low_bits_zero, entry_attributes_bits.
    destruct (Z.testbit attributes_byte 0), (Z.testbit attributes_byte 1),
      (Z.testbit attributes_byte 2), (Z.testbit attributes_byte 3),
      (Z.testbit attributes_byte 4), (Z.testbit attributes_byte 5);
      cbn [app]; split; intros H; try discriminate;
      try (repeat split; reflexivity);
      decompose [and] H; discriminate.
Qed.

Lemma X16_attributes_order_witness :
  entry_attributes_of 0x31 =
    ["read_only"%string; "directory"%string; "archive"%string].
Proof.
  rewrite (proj1 (X16_attributes_order 0x31)). reflexivity.
Defined.

(** X17: [open_file] on the one entry of a name, a file entry with start
    cluster 0 as an empty file has it, raises [IndexError] and leaves the
    reader as it is: the chain is empty and [_compose_file] takes the
    first of no pieces. *)
Theorem X17_open_empty_file (fuel : nat) (name : pystr) (r : Fat16Reader)
    (l1 l2 : list DirectoryEntry.t) (e : DirectoryEntry.t) :
  _current_entries r = l1 ++ e :: l2 ->
  existsb (name_is name) l1 = false ->
  existsb (name_is name) l2 = false ->
  name_is name e = true ->
  is_file_entry e = true ->
  DirectoryEntry.cluster_number e = 0 ->
  open_file fuel name r = (Raise IndexError, r).
Proof.
  intros Hentries H1 H2 Hname Hfile Hzero.
  rewrite (open_file_single fuel name r l1 l2 e Hentries H1 H2 Hname Hfile).
  unfold _get_clusters_list. now rewrite Hzero.
Qed.

Lemma X17_open_empty_file_witness :
  open_file 0 (str "A") (snd (cd 1 (str "BIG") SampleLong.reader_long)) =
    (Raise IndexError, snd (cd 1 (str "BIG") SampleLong.reader_long)).
Proof.
  apply (X17_open_empty_file 0 (str "A")
           (snd (cd 1 (str "BIG") SampleLong.reader_long))
           [Sample.entry_dot; Sample.entry_dotdot]
           [SampleLong.entry_b; SampleLong.entry_c; SampleLong.entry_c]
           SampleLong.entry_a);
    vm_compute; reflexivity.
Defined.

(** ** One step of the walk *)

Lemma is_notable_values (v : Z) :
  is_notable v = true
  <-> v = 0 \/ v = 1 \/ v = 0xFFF7 \/ v = 0xFFF8 \/ v = 0xFFFF.
Proof.
  unfold is_notable, dict_has_key, _fat_16_notable_values.
  cbn [existsb fst]. rewrite !orb_true_iff, !Z.eqb_eq.
  intuition (try discriminate; auto).
Qed.

(** X18: [_check_next_in_fat] returns the 16-bit FAT entry of the cluster
    with the flag that tells whether the walk goes on, which is off
    exactly for the values 0x0000, 0x0001, 0xFFF7, 0xFFF8 and 0xFFFF; when
    the FAT offset and the cluster are not negative it returns exactly if
    the two bytes of the entry lie inside the image, and it raises nothing
    but [struct.error]. *)
Theorem X18_check_next_in_fat (r : Fat16Reader) (cluster_number : Z) :
  (forall has_next v,
      _check_next_in_fat r cluster_number = Ret (has_next, v) ->
      fat_entry r cluster_number = Ret v
      /\ 0 <= v < 65536
      /\ (has_next = false
          <-> v = 0 \/ v = 1 \/ v = 0xFFF7 \/ v = 0xFFF8 \/ v = 0xFFFF))
  /\ (0 <= _fat_offset r -> 0 <= cluster_number ->
      (returns (_check_next_in_fat r cluster_number)
       <-> _fat_offset r + cluster_number * 2 + 2 <= len (image r)))
  /\ (forall x, _check_next_in_fat r cluster_number = Raise x ->
                x = StructError).
Proof.
  split; [|split].
  - intros has_next v H.
    apply check_next_inv in H as (Hentry & -> & Hrange).
    split; [assumption|]. split; [assumption|].
    rewrite <- is_notable_values.
    destruct (is_notable v); cbn [negb]; split; intros; congruence.
  - intros Hfat Hc. unfold returns, _check_next_in_fat, _read_ushort.
    split.
    + intros ([b v] & H). apply bind_Ret_inv in H as (v' & Hv & _).
      apply read_ushort_at_bytes in Hv; [|lia]. lia.
    + intros Hin.
      destruct (read_ushort_inside (image r)
                  (_fat_offset r + cluster_number * 2)) as (v & -> & _);
        [lia | lia |].
      cbn [bind]. eauto.
  - intros x. unfold _check_next_in_fat, _read_ushort, read_ushort_at.
    destruct (py_slice _ _ _) as [|b0 [|b1 [|b2 s]]]; simpl;
      intros H; try discriminate; now injection H as <-.
Qed.

Lemma X18_check_next_in_fat_witness :
  returns (_check_next_in_fat Sample.reader_ok 3).
Proof.
  apply (proj1 (proj2 (X18_check_next_in_fat Sample.reader_ok 3)));
    vm_compute; discriminate.
Defined.

(** ** The listing of a chained directory *)




(** ** Sequences of commands *)

(** X20: whatever commands are issued, in whatever order and with
    whatever outcomes, the reader keeps its image, its print flag, its
    geometry and also [_current_root], which stays the offset it had
    while the current directory changes: the commands assign to
    [_current_entries] and to nothing else. *)
Theorem X20_commands_frame (fuel : nat) (commands : list command)
    (r : Fat16Reader) :
  same_disk r (run_commands fuel commands r)
  /\ image (run_commands fuel commands r) = image r
  /\ do_print_on_commands (run_commands fuel commands r)
     = do_print_on_commands r
  /\ _fat_offset (run_commands fuel commands r) = _fat_offset r
  /\ _root_directory_offset (run_commands fuel commands r)
     = _root_directory_offset r
  /\ _clusters_offset (run_commands fuel commands r) = _clusters_offset r
  /\ _cluster_size (run_commands fuel commands r) = _cluster_size r
  /\ _sector_size (run_commands fuel commands r) = _sector_size r
  /\ _current_root (run_commands fuel commands r) = _current_root r.
Proof.
  assert (Hdisk : same_disk r (run_commands fuel commands r)).
  { unfold run_commands. revert r.
    induction commands as [|c commands IH]; intros r;
      [apply same_disk_refl|].
    cbn [fold_left].
    eapply same_disk_trans; [|apply IH].
    destruct c as [|name|name]; cbn [run_command].
    - apply same_disk_refl.
    - apply cd_same_disk.
    - rewrite open_file_frame. apply same_disk_refl. }
  split; [exact Hdisk|].
  unfold same_disk in Hdisk. rewrite Hdisk. repeat split.
Qed.
